(** * humanlog: the JSON log handler

    A shallow embedding of [JSONHandler] (package humanlog): the probe
    [TryHandle], the normalizer [UnmarshalJSON], the renderer [Prettify]
    with its helper [joinKVs], and the reset-and-rotate step [clear].

    Go strings are byte sequences: they are modelled by [string], whose
    characters are the 8-bit [ascii] values, so that [len] and slicing count
    bytes as Go does.  A [float64] is a primitive binary64 [float].  A map is
    a [gmap]; a nil map reads as the empty map.  A run-time panic is the
    result [None] of the operation that raises it. *)

From Stdlib Require Import ZArith Floats String Ascii List Bool Lia.
From Stdlib Require Import Permutation Sorted QArith Qround Qabs.
From stdpp Require Import gmap strings list fin_maps sorting pretty.

Set Warnings "-inexact-float,-register-all".
Local Open Scope string_scope.
Local Open Scope Z_scope.

(** ** Go strings *)

(** The one-character string holding a double quote. *)
Definition DQ : string := String "034" EmptyString.

(** The one-character string holding a horizontal tab. *)
Definition TAB : string := String "009" EmptyString.

(** [len(s)]: the number of bytes of [s]. *)
Definition len (s : string) : Z := Z.of_nat (String.length s).

(** The slice expression [s[:n]].  It panics unless [0 <= n <= len(s)]. *)
Definition slice_to (s : string) (n : Z) : option string :=
  if (0 <=? n) && (n <=? len s) then Some (String.substring 0 (Z.to_nat n) s) else None.

(** [bytes.Contains(d, sub)]: [sub] occurs in [d] as a contiguous run. *)
Fixpoint bytes_Contains (d sub : string) : bool :=
  if String.prefix sub d then true
  else match d with
       | EmptyString => false
       | String _ d' => bytes_Contains d' sub
       end.

(** [strings.Join(elems, sep)]. *)
Fixpoint strings_Join (elems : list string) (sep : string) : string :=
  match elems with
  | [] => EmptyString
  | [e] => e
  | e :: rest => e +:+ sep +:+ strings_Join rest sep
  end.

(** The comparison [a < b] of two Go strings: bytewise lexicographic. *)
Fixpoint str_lt (a b : string) : bool :=
  match a, b with
  | _, EmptyString => false
  | EmptyString, String _ _ => true
  | String x a', String y b' =>
      (nat_of_ascii x <? nat_of_ascii y)%nat
      || ((nat_of_ascii x =? nat_of_ascii y)%nat && str_lt a' b')
  end.

(** ** UTF-8 and upper-casing (packages unicode/utf8, unicode, strings) *)

Definition RuneError : Z := 0xFFFD.

Definition byte_of (c : ascii) : Z := Z.of_nat (nat_of_ascii c).

Definition char_of (b : Z) : ascii := ascii_of_nat (Z.to_nat (b mod 256)).

(** A continuation byte, [0x80..0xBF]. *)
Definition is_cont (b : Z) : bool := (0x80 <=? b) && (b <=? 0xBF).

(** The range the second byte of a sequence must lie in, by its first byte
    (utf8's [acceptRanges]); [None] when the first byte starts no multi-byte
    sequence. The result also gives the sequence's length. *)
Definition utf8_first (b0 : Z) : option (Z * Z * nat) :=
  if (0xC2 <=? b0) && (b0 <=? 0xDF) then Some (0x80, 0xBF, 2%nat)
  else if b0 =? 0xE0 then Some (0xA0, 0xBF, 3%nat)
  else if (0xE1 <=? b0) && (b0 <=? 0xEC) then Some (0x80, 0xBF, 3%nat)
  else if b0 =? 0xED then Some (0x80, 0x9F, 3%nat)
  else if (0xEE <=? b0) && (b0 <=? 0xEF) then Some (0x80, 0xBF, 3%nat)
  else if b0 =? 0xF0 then Some (0x90, 0xBF, 4%nat)
  else if (0xF1 <=? b0) && (b0 <=? 0xF3) then Some (0x80, 0xBF, 4%nat)
  else if b0 =? 0xF4 then Some (0x80, 0x8F, 4%nat)
  else None.

(** [utf8.EncodeRune]: the bytes of rune [r]; a surrogate or a value past
    [MaxRune] is written as [RuneError]. *)
Definition utf8_encode (r : Z) : string :=
  let three (r : Z) :=
    String (char_of (Z.lor 0xE0 (Z.shiftr r 12)))
      (String (char_of (Z.lor 0x80 (Z.land (Z.shiftr r 6) 0x3F)))
         (String (char_of (Z.lor 0x80 (Z.land r 0x3F))) EmptyString)) in
  if (0 <=? r) && (r <=? 0x7F) then String (char_of r) EmptyString
  else if (0 <=? r) && (r <=? 0x7FF) then
    String (char_of (Z.lor 0xC0 (Z.shiftr r 6)))
      (String (char_of (Z.lor 0x80 (Z.land r 0x3F))) EmptyString)
  else if (r <? 0) || (0x10FFFF <? r) || ((0xD800 <=? r) && (r <=? 0xDFFF)) then
    three RuneError
  else if r <=? 0xFFFF then three r
  else
    String (char_of (Z.lor 0xF0 (Z.shiftr r 18)))
      (String (char_of (Z.lor 0x80 (Z.land (Z.shiftr r 12) 0x3F)))
         (String (char_of (Z.lor 0x80 (Z.land (Z.shiftr r 6) 0x3F)))
            (String (char_of (Z.lor 0x80 (Z.land r 0x3F))) EmptyString))).

(** [strings.Map(mapping, s)]: every rune of [s] (an invalid byte reads as
    [RuneError], one byte wide, as [utf8.DecodeRuneInString] gives it) is
    replaced by the encoding of its image; a negative image is dropped. *)
Fixpoint strings_Map (mapping : Z -> Z) (s : string) : string :=
  let put (r : Z) (rest : string) : string :=
    let r' := mapping r in
    if r' <? 0 then rest else utf8_encode r' +:+ rest in
  match s with
  | EmptyString => EmptyString
  | String c0 s1 =>
      let b0 := byte_of c0 in
      if b0 <? 0x80 then put b0 (strings_Map mapping s1)
      else
        let invalid := put RuneError (strings_Map mapping s1) in
        match utf8_first b0, s1 with
        | Some (lo, hi, n), String c1 s2 =>
            let b1 := byte_of c1 in
            if (lo <=? b1) && (b1 <=? hi) then
              match n, s2 with
              | 2%nat, _ =>
                  put (Z.lor (Z.shiftl (Z.land b0 0x1F) 6) (Z.land b1 0x3F))
                      (strings_Map mapping s2)
              | 3%nat, String c2 s3 =>
                  let b2 := byte_of c2 in
                  if is_cont b2 then
                    put (Z.lor (Z.shiftl (Z.land b0 0x0F) 12)
                           (Z.lor (Z.shiftl (Z.land b1 0x3F) 6) (Z.land b2 0x3F)))
                        (strings_Map mapping s3)
                  else invalid
              | 4%nat, String c2 (String c3 s4) =>
                  let b2 := byte_of c2 in
                  let b3 := byte_of c3 in
                  if is_cont b2 && is_cont b3 then
                    put (Z.lor (Z.shiftl (Z.land b0 0x07) 18)
                           (Z.lor (Z.shiftl (Z.land b1 0x3F) 12)
                              (Z.lor (Z.shiftl (Z.land b2 0x3F) 6) (Z.land b3 0x3F))))
                        (strings_Map mapping s4)
                  else invalid
              | _, _ => invalid
              end
            else invalid
        | _, _ => invalid
        end
  end.

(** ** float64 (IEEE 754 binary64) *)

(** The largest integer not above a finite float, read off its mantissa and
    exponent: a shift by a negative exponent rounds toward minus infinity. *)
Definition SF_floorZ (x : spec_float) : option Z :=
  match x with
  | S754_zero _ => Some 0
  | S754_finite s m e => Some (Z.shiftl (cond_Zopp s (Zpos m)) e)
  | S754_infinity _ | S754_nan => None
  end.

(** The integer part of a finite float: its value rounded toward zero. *)
Definition SF_truncZ (x : spec_float) : option Z :=
  match x with
  | S754_zero _ => Some 0
  | S754_finite s m e => Some (cond_Zopp s (Z.shiftl (Zpos m) e))
  | S754_infinity _ | S754_nan => None
  end.

Definition float_floorZ (v : float) : option Z := SF_floorZ (Prim2SF v).

Definition float_truncZ (v : float) : option Z := SF_truncZ (Prim2SF v).

(** The conversion [float64(i)] of an integer: the nearest float. *)
Definition float64_of_Z (i : Z) : float :=
  SF2Prim (binary_normalize prec emax i 0 false).

(** [math.Floor(v)]; zeros, infinities and NaN are returned as they are. *)
Definition math_Floor (v : float) : float :=
  match Prim2SF v with
  | S754_finite _ _ _ =>
      match float_floorZ v with Some z => float64_of_Z z | None => v end
  | _ => v
  end.

Definition int64_min : Z := - 2 ^ 63.

Definition int64_max : Z := 2 ^ 63 - 1.

(** ** Values and records *)

(** A dynamic value held in an [interface{}].  [json.Unmarshal] stores
    [nil], [bool], [float64], [string], [[]interface{}] and
    [map[string]interface{}]; [VInt64] is the dynamic type [int64], which the
    handler also tests for. *)
Inductive value : Type :=
| VNil
| VBool (b : bool)
| VFloat64 (f : float)
| VString (s : string)
| VSlice (elems : list value)
| VMap (entries : list (string * value))
| VInt64 (i : Z).

(** A [time.Time] as an instant: seconds and nanoseconds counted from the
    zero time (location and monotonic reading are left out). *)
Record time_Time : Type := { seconds : Z; nanoseconds : Z }.

(** The zero value [time.Time{}]. *)
Definition time_zero : time_Time := {| seconds := 0; nanoseconds := 0 |}.

(** The writer built by [tabwriter.NewWriter(h.buf, 0, 1, 0, '\t', 0)]. *)
Record tabwriter_Writer : Type :=
  { minwidth : Z; tabwidth : Z; padding : Z; padchar : ascii; flags : Z }.

Definition tabwriter_NewWriter : tabwriter_Writer :=
  {| minwidth := 0; tabwidth := 1; padding := 0; padchar := "009"%char; flags := 0 |}.

Record RGB : Type := { R : Z; G : Z; B : Z }.

(** Modelled from the spec: [HandlerOptions], whose declaration is not part
    of the handler's file.  The spec lists its contents: the time layout,
    truncation on/off and its maximal length, the sort-longest and
    skip-unchanged toggles, the light-background flag, the key and value
    colours, and the two predicates on key names [shouldShowKey] and
    [shouldShowUnchanged], which it treats as opaque boolean functions. *)
Record HandlerOptions : Type := {
  TimeFormat : string;
  Truncates : bool;
  TruncateLength : Z;
  SortLongest : bool;
  SkipUnchanged : bool;
  LightBg : bool;
  KeyRGB : RGB;
  ValRGB : RGB;
  shouldShowKey : string -> bool;
  shouldShowUnchanged : string -> bool
}.

(** The handler.  [buf] holds the bytes of the [bytes.Buffer] ([None] while
    the pointer is nil) and [out] the tabwriter writing into it. *)
Record JSONHandler : Type := {
  buf : option string;
  out : option tabwriter_Writer;
  truncKV : Z;
  Opts : option HandlerOptions;
  Level : string;
  Time : time_Time;
  Message : string;
  Fields : gmap string string;
  last : gmap string string
}.

(** The error [UnmarshalJSON] returns. *)
Inductive error : Type :=
| JSONError
| UnknownTimestamp (timeStr : string).

(** What the handler calls outside its own file: Go's standard library, the
    rgbterm package, and declarations of package humanlog kept in other
    files. *)
Class External : Type := {
  (** [json.Unmarshal(data, &raw)] into a [map[string]interface{}]: the
      decoded object, [None] when it returns an error. *)
  json_Unmarshal : string -> option (gmap string value);
  (** [tryParseTime] of package humanlog: the time read and whether one of
      the supported layouts matched. *)
  tryParseTime : string -> time_Time * bool;
  (** [time.Unix(sec, nsec)]. *)
  time_Unix : Z -> Z -> time_Time;
  (** [t.Format(layout)]. *)
  Time_Format : time_Time -> string -> string;
  (** [fmt.Sprintf("%g", v)]. *)
  Sprintf_g : float -> string;
  (** [fmt.Sprintf("%v", v)]. *)
  Sprintf_v : value -> string;
  (** The body [strconv.Quote] writes between the two quotes: the runes of
      the string, escaped where Go escapes them. *)
  strconv_escaped : string -> string;
  (** [unicode.To(unicode.UpperCase, r)] on the code points whose entry of
      the case table this development does not spell out. *)
  unicode_To_UpperCase : Z -> Z;
  (** The result of converting to an integer a float whose integer part no
      [int64] holds (implementation-dependent). *)
  float64_to_int_overflow : float -> Z;
  (** [rgbterm.FgString] and [rgbterm.BgString]. *)
  FgString : string -> Z -> Z -> Z -> string;
  BgString : string -> Z -> Z -> Z -> string;
  (** What the tabwriter writes to its buffer when the given text was
      written to it and it is flushed. *)
  tabwriter_Flush : tabwriter_Writer -> string -> string;
  (** [DefaultOptions] of package humanlog. *)
  DefaultOptions : HandlerOptions
}.

(** Modelled from the spec: [imin], a helper of package humanlog kept in
    another file.  The level is cut "to at most 4 characters (fewer if the
    level string is shorter)": the smaller of the two integers. *)
Definition imin (a b : Z) : Z := if a <? b then a else b.

(** Modelled from the spec: the order of [byLongest], declared in another
    file of package humanlog.  The spec has tokens "grouped by ascending
    length": [Less(i, j)] compares the lengths. *)
Definition byLongest_Less (a b : string) : bool := len a <? len b.

(** [sort.Stable] and [sort.Strings] leave one possible result each (the
    order [str_lt] is total, and a stable sort keeps equal elements in
    place): both are written as the stable insertion sort. *)
Fixpoint sort_insert (less : string -> string -> bool) (x : string)
    (l : list string) : list string :=
  match l with
  | [] => [x]
  | y :: l' => if less y x then y :: sort_insert less x l' else x :: y :: l'
  end.

Definition sort_Stable (less : string -> string -> bool) (l : list string)
    : list string :=
  foldr (sort_insert less) [] l.

Definition sort_Strings (l : list string) : list string := sort_Stable str_lt l.

(** [a <= b] for Go strings. *)
Definition str_le (a b : string) : Prop := str_lt b a = false.

Section Order.

Variable less : string -> string -> bool.

(** [a] does not come after [b] in the order of [less]. *)
Definition not_after (a b : string) : Prop := less b a = false.

(** The order a stable sort by [less] gives a list that was in the order
    [prior]: by [less], and by [prior] among the elements [less] does not
    tell apart. *)
Definition refined (prior : string -> string -> Prop) (a b : string) : Prop :=
  not_after a b /\ (less a b = true \/ prior a b).

End Order.

(** The order of the tokens when sort-longest is on: by ascending length,
    and lexicographic among tokens of one length. *)
Definition len_lex_le (a b : string) : Prop :=
  len a < len b \/ (len a = len b /\ str_le a b).

(** Record updates of the handler, one per assigned field. *)
Definition set_Time (h : JSONHandler) (t : time_Time) : JSONHandler :=
  {| buf := buf h; out := out h; truncKV := truncKV h; Opts := Opts h;
     Level := Level h; Time := t; Message := Message h; Fields := Fields h;
     last := last h |}.

Definition set_Message (h : JSONHandler) (m : string) : JSONHandler :=
  {| buf := buf h; out := out h; truncKV := truncKV h; Opts := Opts h;
     Level := Level h; Time := Time h; Message := m; Fields := Fields h;
     last := last h |}.

Definition set_Level (h : JSONHandler) (l : string) : JSONHandler :=
  {| buf := buf h; out := out h; truncKV := truncKV h; Opts := Opts h;
     Level := l; Time := Time h; Message := Message h; Fields := Fields h;
     last := last h |}.

Definition set_Fields (h : JSONHandler) (f : gmap string string) : JSONHandler :=
  {| buf := buf h; out := out h; truncKV := truncKV h; Opts := Opts h;
     Level := Level h; Time := Time h; Message := Message h; Fields := f;
     last := last h |}.

(** The type assertions [x.(string)], [x.(int64)] and [x.(float64)] in their
    two-result form, on the result of a map lookup: the zero value and
    [false] when the key is missing or holds another type. *)
Definition assert_string (x : option value) : string * bool :=
  match x with Some (VString s) => (s, true) | _ => (EmptyString, false) end.

Definition assert_int64 (x : option value) : Z * bool :=
  match x with Some (VInt64 i) => (i, true) | _ => (0, false) end.

Definition assert_float64 (x : option value) : float * bool :=
  match x with Some (VFloat64 f) => (f, true) | _ => (0%float, false) end.

(** [func (h *JSONHandler) clear()]. *)
Definition clear (h : JSONHandler) : JSONHandler :=
  {| buf := match buf h with Some _ => Some EmptyString | None => None end;
     out := out h; truncKV := truncKV h; Opts := Opts h;
     Level := EmptyString;
     Time := time_zero;
     Message := EmptyString;
     Fields := ∅;
     last := Fields h |}.

(** The two markers [TryHandle] looks for. *)
Definition time_marker : string := DQ +:+ "time" +:+ DQ +:+ ":".

Definition ts_marker : string := DQ +:+ "ts" +:+ DQ +:+ ":".

Section Handler.

Context {E : External}.

(** [unicode.ToUpper(r)].  Of the case table, the two entries that map a
    two-byte letter to a one-byte one are spelled out: U+0131 (dotless i)
    to U+0049 and U+017F (long s) to U+0053. *)
Definition unicode_ToUpper (r : Z) : Z :=
  if r <=? 0x7F then
    if (0x61 <=? r) && (r <=? 0x7A) then r - 0x20 else r
  else if r =? 0x131 then 0x49
  else if r =? 0x17F then 0x53
  else unicode_To_UpperCase r.

(** [strings.ToUpper(s)]. *)
Definition strings_ToUpper (s : string) : string :=
  strings_Map unicode_ToUpper s.

(** [int64(v)] and [int(v)] of a float (an [int] is 64 bits wide): the
    integer part when an [int64] holds it. *)
Definition float64_to_int64 (v : float) : Z :=
  match float_truncZ v with
  | Some z =>
      if (int64_min <=? z) && (z <=? int64_max) then z
      else float64_to_int_overflow v
  | None => float64_to_int_overflow v
  end.

(** [fmt.Sprintf("%d", i)]: the decimal digits, with a minus sign when
    negative. *)
Definition Sprintf_d (i : Z) : string := pretty i.

(** [fmt.Sprintf("%q", s)]: [strconv.Quote(s)]. *)
Definition Sprintf_q (s : string) : string := DQ +:+ strconv_escaped s +:+ DQ.

(** The test of line 109: [v-math.Floor(v) < 0.000001 && v < 1e9]. *)
Definition looksLikeInteger (v : float) : bool :=
  ((v - math_Floor v) <? 0.000001)%float && (v <? 1e9)%float.

(** The body of the loop of lines 106-120: the display string of a value. *)
Definition formatValue (val : value) : string :=
  match val with
  | VFloat64 v =>
      if looksLikeInteger v then Sprintf_d (float64_to_int64 v)
      else Sprintf_g v
  | VString v => Sprintf_q v
  | _ => Sprintf_v val
  end.

(** Lines 64-84: the timestamp.  The result is the error returned, if any,
    the handler, and what is left of [raw]. *)
Definition extractTime (h : JSONHandler) (raw : gmap string value)
    : option error * JSONHandler * gmap string value :=
  let '(timeStr, ok) := assert_string (raw !! "time") in
  let '(timeStr, ok, raw) :=
    if ok then (timeStr, ok, delete "time" raw)
    else
      let '(timeStr, ok) := assert_string (raw !! "ts") in
      if ok then (timeStr, ok, delete "ts" raw) else (timeStr, ok, raw) in
  if ok then
    let '(t, ok) := tryParseTime timeStr in
    let h := set_Time h t in
    if negb ok then (Some (UnknownTimestamp timeStr), h, raw)
    else (None, h, raw)
  else
    let '(i, iOk) := assert_int64 (raw !! "ts") in
    if iOk then (None, set_Time h (time_Unix i 0), delete "ts" raw)
    else
      let '(f, fOk) := assert_float64 (raw !! "ts") in
      if fOk then
        let sec := float64_to_int64 f in
        let frac := ((f - float64_of_Z sec) * 1000000000)%float in
        (None, set_Time h (time_Unix sec (float64_to_int64 frac)),
         delete "ts" raw)
      else (None, h, raw).

(** Lines 85-89: the message. *)
Definition extractMessage (h : JSONHandler) (raw : gmap string value)
    : JSONHandler * gmap string value :=
  let '(m, ok) := assert_string (raw !! "msg") in
  if ok then (set_Message h m, delete "msg" raw)
  else
    let '(m, ok) := assert_string (raw !! "message") in
    if ok then (set_Message h m, delete "message" raw)
    else (set_Message h m, raw).

(** Lines 91-100: the level. *)
Definition extractLevel (h : JSONHandler) (raw : gmap string value)
    : JSONHandler * gmap string value :=
  let '(l, ok) := assert_string (raw !! "level") in
  if negb ok then
    let '(l, ok) := assert_string (raw !! "lvl") in
    let raw := delete "lvl" raw in
    if negb ok then (set_Level h "????", raw) else (set_Level h l, raw)
  else (set_Level h l, delete "level" raw).

(** Lines 102-120: every remaining pair is stored in [h.Fields]. *)
Definition storeFields (h : JSONHandler) (raw : gmap string value) : JSONHandler :=
  set_Fields h
    (map_fold (fun key val fields => <[key := formatValue val]> fields)
       (Fields h) raw).

(** [func (h *JSONHandler) UnmarshalJSON(data []byte) error]: the error
    returned ([None] for nil) and the handler as the call leaves it. *)
Definition UnmarshalJSON (h : JSONHandler) (data : string)
    : option error * JSONHandler :=
  match json_Unmarshal data with
  | None => (Some JSONError, h)
  | Some raw =>
      match extractTime h raw with
      | (Some err, h, _) => (Some err, h)
      | (None, h, raw) =>
          let '(h, raw) := extractMessage h raw in
          let '(h, raw) := extractLevel h raw in
          (None, storeFields h raw)
      end
  end.

(** [func (h *JSONHandler) TryHandle(d []byte) bool]. *)
Definition TryHandle (h : JSONHandler) (d : string) : bool * JSONHandler :=
  if negb (bytes_Contains d time_marker) && negb (bytes_Contains d ts_marker)
  then (false, h)
  else
    match UnmarshalJSON h d with
    | (Some _, h) => (false, clear h)
    | (None, h) => (true, h)
    end.

(** Lines 190-195 of [joinKVs]: the value as shown, cut when truncation is
    on and the value is longer than the limit.  The slice panics on a
    negative limit. *)
Definition truncateValue (opts : HandlerOptions) (v : string) : option string :=
  if Truncates opts && (len v >? TruncateLength opts) then
    match slice_to v (TruncateLength opts) with
    | Some cut => Some (cut +:+ "...")
    | None => None
    end
  else Some v.

(** What one iteration of the loop of [joinKVs] does with a field. *)
Inductive emitted : Type :=
| Skipped
| Token (kv : string)
| Panicked.

(** The body of the loop of [joinKVs], lines 178-197. *)
Definition kvToken (opts : HandlerOptions) (lastFields : gmap string string)
    (skipUnchanged : bool) (sep k v : string) : emitted :=
  if negb (shouldShowKey opts k) then Skipped
  else if skipUnchanged
          && match lastFields !! k with
             | Some lastV => String.eqb lastV v && negb (shouldShowUnchanged opts k)
             | None => false
             end
  then Skipped
  else
    let kstr := FgString k (R (KeyRGB opts)) (G (KeyRGB opts)) (B (KeyRGB opts)) in
    match truncateValue opts v with
    | Some vstr =>
        let vstr := FgString vstr (R (ValRGB opts)) (G (ValRGB opts)) (B (ValRGB opts)) in
        Token (kstr +:+ sep +:+ vstr)
    | None => Panicked
    end.

(** The token of a field that is shown with the value [vstr]. *)
Definition tokenOf (opts : HandlerOptions) (sep k vstr : string) : string :=
  FgString k (R (KeyRGB opts)) (G (KeyRGB opts)) (B (KeyRGB opts)) +:+ sep
  +:+ FgString vstr (R (ValRGB opts)) (G (ValRGB opts)) (B (ValRGB opts)).

(** The loop of [joinKVs] over the fields in the order they are visited:
    the tokens appended to [kv], or [None] when an iteration panics. *)
Fixpoint collectKVs (opts : HandlerOptions) (lastFields : gmap string string)
    (skipUnchanged : bool) (sep : string) (fields : list (string * string))
    : option (list string) :=
  match fields with
  | [] => Some []
  | (k, v) :: rest =>
      match kvToken opts lastFields skipUnchanged sep k v with
      | Panicked => None
      | Skipped => collectKVs opts lastFields skipUnchanged sep rest
      | Token kv =>
          match collectKVs opts lastFields skipUnchanged sep rest with
          | Some kvs => Some (kv :: kvs)
          | None => None
          end
      end
  end.

(** Lines 200-204 of [joinKVs]: the two sorts. *)
Definition sortKVs (opts : HandlerOptions) (kv : list string) : list string :=
  let kv := sort_Strings kv in
  if SortLongest opts then sort_Stable byLongest_Less kv else kv.

(** [func (h *JSONHandler) joinKVs(skipUnchanged bool, sep string) []string].
    The fields are visited in the order [map_to_list] lists them; the result
    does not depend on that order (see [joinKVs_order_irrelevant]).
    Dereferencing a nil [h.Opts] panics. *)
Definition joinKVs (h : JSONHandler) (skipUnchanged : bool) (sep : string)
    : option (list string) :=
  match Opts h with
  | None => None
  | Some opts =>
      match collectKVs opts (last h) skipUnchanged sep (map_to_list (Fields h)) with
      | Some kv => Some (sortKVs opts kv)
      | None => None
      end
  end.

(** Lines 128-134 of [Prettify]: the writer and its buffer are created on
    the first call, and nil options are replaced by the default ones. *)
Definition ensureWriter (h : JSONHandler) : JSONHandler :=
  match out h with
  | Some _ => h
  | None =>
      {| buf := Some EmptyString; out := Some tabwriter_NewWriter;
         truncKV := truncKV h;
         Opts := match Opts h with Some o => Some o | None => Some DefaultOptions end;
         Level := Level h; Time := Time h; Message := Message h;
         Fields := Fields h; last := last h |}
  end.

(** Line 145: [strings.ToUpper(h.Level)[:imin(4, len(h.Level))]]. *)
Definition levelAbbrev (level : string) : option string :=
  slice_to (strings_ToUpper level) (imin 4 (len level)).

(** Lines 147-160: the colour of the level. *)
Definition levelColor (level lvl : string) : string :=
  if String.eqb level "debug" then FgString lvl 221 28 119
  else if String.eqb level "info" then FgString lvl 20 172 190
  else if String.eqb level "warn" || String.eqb level "warning" then FgString lvl 255 245 32
  else if String.eqb level "error" then FgString lvl 255 0 0
  else if String.eqb level "fatal" || String.eqb level "panic" then BgString lvl 255 0 0
  else FgString lvl 221 28 119.

(** Lines 136-171 of [Prettify]: the bytes returned, [None] when the call
    panics.  [h] is the handler after [ensureWriter]. *)
Definition prettifyBytes (h : JSONHandler) (skipUnchanged : bool) : option string :=
  match Opts h, out h, buf h with
  | Some opts, Some w, Some b =>
      let msg :=
        if String.eqb (Message h) EmptyString then FgString "<no msg>" 190 190 190
        else if LightBg opts then FgString (Message h) 0 0 0
        else FgString (Message h) 255 255 255 in
      match levelAbbrev (Level h) with
      | None => None
      | Some lvl =>
          let level := levelColor (Level h) lvl in
          match joinKVs h skipUnchanged "=" with
          | None => None
          | Some kvs =>
              let text :=
                FgString (Time_Format (Time h) (TimeFormat opts)) 99 99 99
                +:+ " |" +:+ level +:+ "| " +:+ msg +:+ TAB +:+ " "
                +:+ strings_Join kvs (TAB +:+ " ") in
              Some (b +:+ tabwriter_Flush w text)
          end
      end
  | _, _, _ => None
  end.

(** [func (h *JSONHandler) Prettify(skipUnchanged bool) []byte]: the bytes
    returned ([None] when the call panics) and the handler afterwards.  The
    deferred [h.clear()] runs when the function returns and when it
    panics. *)
Definition Prettify (h : JSONHandler) (skipUnchanged : bool)
    : option string * JSONHandler :=
  let h := ensureWriter h in
  (prettifyBytes h skipUnchanged, clear h).

End Handler.

(** * The vocabulary of the spec *)

(** ** Truncation *)

(** The value as the spec describes truncation: its first [n] bytes
    followed by three dots when it is longer than [n], itself otherwise. *)
Definition spec_truncated (n : Z) (v : string) : string :=
  if len v >? n then String.substring 0 (Z.to_nat n) v +:+ "..." else v.

(** The number of bytes of the UTF-8 sequence [s] starts with; a byte that
    starts no valid sequence is a character of one byte, as
    [utf8.DecodeRuneInString] reads it. *)
Definition utf8_width (s : string) : nat :=
  match s with
  | EmptyString => 0%nat
  | String c0 s1 =>
      if byte_of c0 <? 0x80 then 1%nat
      else
        match utf8_first (byte_of c0), s1 with
        | Some (lo, hi, n), String c1 s2 =>
            if (lo <=? byte_of c1) && (byte_of c1 <=? hi) then
              match n, s2 with
              | 2%nat, _ => 2%nat
              | 3%nat, String c2 _ => if is_cont (byte_of c2) then 3%nat else 1%nat
              | 4%nat, String c2 (String c3 _) =>
                  if is_cont (byte_of c2) && is_cont (byte_of c3) then 4%nat
                  else 1%nat
              | _, _ => 1%nat
              end
            else 1%nat
        | _, _ => 1%nat
        end
  end.

Fixpoint drop_bytes (n : nat) (s : string) : string :=
  match n, s with
  | O, _ => s
  | S n', String _ s' => drop_bytes n' s'
  | S _, EmptyString => EmptyString
  end.

Fixpoint chars_fuel (fuel : nat) (s : string) : list string :=
  match fuel with
  | O => []
  | S fuel' =>
      match s with
      | EmptyString => []
      | String _ _ =>
          String.substring 0 (utf8_width s) s
          :: chars_fuel fuel' (drop_bytes (utf8_width s) s)
      end
  end.

(** The characters of a string, each as the bytes of its UTF-8 sequence. *)
Definition utf8_chars (s : string) : list string :=
  chars_fuel (String.length s) s.

(** The value as the spec describes truncation, its words read in
    characters: the first [n] characters followed by three dots when the
    value has more than [n] characters, itself otherwise. *)
Definition spec_truncated_chars (n : Z) (v : string) : string :=
  if Z.of_nat (length (utf8_chars v)) >? n
  then foldr String.append EmptyString (take (Z.to_nat n) (utf8_chars v)) +:+ "..."
  else v.

(** ** The normalizer *)

(** Whether a type assertion on a looked-up value holds. *)
Definition is_string (x : option value) : bool := snd (assert_string x).

Definition is_int64 (x : option value) : bool := snd (assert_int64 x).

Definition is_float64 (x : option value) : bool := snd (assert_float64 x).

(** The string timestamp of a decoded line: the string under "time", or
    else the string under "ts". *)
Definition timestampString (raw : gmap string value) : option string :=
  match raw !! "time" with
  | Some (VString s) => Some s
  | _ => match raw !! "ts" with
         | Some (VString s) => Some s
         | _ => None
         end
  end.

(** The key the timestamp is taken from, if any. *)
Definition timeKey (raw : gmap string value) : option string :=
  if is_string (raw !! "time") then Some "time"
  else if is_string (raw !! "ts") || is_int64 (raw !! "ts") || is_float64 (raw !! "ts")
       then Some "ts"
       else None.

(** The key the message is taken from, if any. *)
Definition messageKey (raw : gmap string value) : option string :=
  if is_string (raw !! "msg") then Some "msg"
  else if is_string (raw !! "message") then Some "message"
  else None.

(** The key [extractLevel] deletes: "level" when it holds a string, and
    "lvl" otherwise, whatever "lvl" holds. *)
Definition levelKey (raw : gmap string value) : string :=
  if is_string (raw !! "level") then "level" else "lvl".

Definition delete_key (k : option string) (raw : gmap string value)
    : gmap string value :=
  match k with Some k => delete k raw | None => raw end.

(** What is left of a decoded line when the three extractions are done. *)
Definition remaining (raw : gmap string value) : gmap string value :=
  delete (levelKey raw) (delete_key (messageKey raw) (delete_key (timeKey raw) raw)).

(** ** Numbers *)

(** The sign bit of a float. *)
Definition float_sign (v : float) : bool :=
  match Prim2SF v with
  | S754_zero s | S754_infinity s | S754_finite s _ _ => s
  | S754_nan => false
  end.

(** The number a finite float denotes. *)
Definition float_Q (v : float) : option Q :=
  match Prim2SF v with
  | S754_zero _ => Some 0%Q
  | S754_finite s m e => Some (inject_Z (cond_Zopp s (Zpos m)) * Qpower (2 # 1) e)%Q
  | S754_infinity _ | S754_nan => None
  end.

(** [round(q)]: the nearest integer, halves away from zero. *)
Definition Q_round (q : Q) : Z :=
  if Qle_bool 0%Q q then Qfloor (q + (1 # 2))%Q else Qceiling (q - (1 # 2))%Q.

Definition Q_ltb (a b : Q) : bool := negb (Qle_bool b a).

(** The test the spec states for numbers: [|q - round(q)| < 1e-6] and
    [|q| < 1e9]. *)
Definition spec_looks_integer (q : Q) : bool :=
  Q_ltb (Qabs (q - inject_Z (Q_round q))%Q) (1 # 1000000)%Q
  && Q_ltb (Qabs q) (inject_Z 1000000000).

(** The display string the spec gives a number passing its test: the
    decimal string of [round(v)]. *)
Definition spec_integer_display (v : float) : option string :=
  match float_Q v with
  | Some q => if spec_looks_integer q then Some (pretty (Q_round q)) else None
  | None => None
  end.

(** A decimal digit. *)
Definition is_digit (c : ascii) : bool := (48 <=? byte_of c) && (byte_of c <=? 57).

Fixpoint all_digits (s : string) : bool :=
  match s with
  | EmptyString => true
  | String c s' => is_digit c && all_digits s'
  end.

(** A plain decimal integer: a minus sign or none, then one digit or more,
    and nothing else (no decimal point, no exponent). *)
Definition plain_integer (s : string) : bool :=
  match s with
  | EmptyString => false
  | String c s' =>
      if Ascii.eqb c "-" then negb (String.eqb s' EmptyString) && all_digits s'
      else all_digits s
  end.

(** ** The level abbreviation *)

(** The level "ſ" (U+017F, LATIN SMALL LETTER LONG S): the two bytes C5 BF. *)
Definition long_s : string := String "197" (String "191" EmptyString).

(** Every byte is below [utf8.RuneSelf]. *)
Fixpoint is_ascii (s : string) : bool :=
  match s with
  | EmptyString => true
  | String c s' => (byte_of c <? 0x80) && is_ascii s'
  end.

(** No byte is a lower-case ASCII letter. *)
Fixpoint no_lower (s : string) : bool :=
  match s with
  | EmptyString => true
  | String c s' => negb ((0x61 <=? byte_of c) && (byte_of c <=? 0x7A)) && no_lower s'
  end.

(** ** A plain instance of what the handler calls

    Used to run the handler on concrete lines: the styler adds nothing (the
    no-op styler of the spec's design notes), the decoder knows the lines
    below, the layout matcher knows one RFC 3339 time, and a string is
    escaped to itself (as Go does for printable ASCII without quote or
    backslash). *)

Definition quoted (s : string) : string := DQ +:+ s +:+ DQ.

(** [{"time":"2024-01-01T00:00:00Z","level":"info","msg":"started","count":3,"env":"prod"}] *)
Definition line_started : string :=
  "{" +:+ quoted "time" +:+ ":" +:+ quoted "2024-01-01T00:00:00Z" +:+ ","
  +:+ quoted "level" +:+ ":" +:+ quoted "info" +:+ ","
  +:+ quoted "msg" +:+ ":" +:+ quoted "started" +:+ ","
  +:+ quoted "count" +:+ ":3," +:+ quoted "env" +:+ ":" +:+ quoted "prod" +:+ "}".

Definition raw_started : gmap string value :=
  list_to_map
    [("time", VString "2024-01-01T00:00:00Z"); ("level", VString "info");
     ("msg", VString "started"); ("count", VFloat64 3%float);
     ("env", VString "prod")].

(** [{"ts":"yesterday","lvl":"warning","env":"prod"}] *)
Definition line_yesterday : string :=
  "{" +:+ quoted "ts" +:+ ":" +:+ quoted "yesterday" +:+ ","
  +:+ quoted "lvl" +:+ ":" +:+ quoted "warning" +:+ ","
  +:+ quoted "env" +:+ ":" +:+ quoted "prod" +:+ "}".

Definition raw_yesterday : gmap string value :=
  list_to_map
    [("ts", VString "yesterday"); ("lvl", VString "warning");
     ("env", VString "prod")].

(** [{"nested":{"ts":1},"env":"prod"}]: no timestamp key of its own. *)
Definition line_nested : string :=
  "{" +:+ quoted "nested" +:+ ":{" +:+ quoted "ts" +:+ ":1},"
  +:+ quoted "env" +:+ ":" +:+ quoted "prod" +:+ "}".

Definition raw_nested : gmap string value :=
  list_to_map
    [("nested", VMap [("ts", VFloat64 1%float)]); ("env", VString "prod")].

(** [{"ts":] : cut short, not JSON. *)
Definition line_cut : string := "{" +:+ quoted "ts" +:+ ":".

Definition plain_External : External := {|
  json_Unmarshal := fun d =>
    if String.eqb d line_started then Some raw_started
    else if String.eqb d line_yesterday then Some raw_yesterday
    else if String.eqb d line_nested then Some raw_nested
    else None;
  tryParseTime := fun s =>
    if String.eqb s "2024-01-01T00:00:00Z"
    then ({| seconds := 63839664000; nanoseconds := 0 |}, true)
    else (time_zero, false);
  time_Unix := fun sec nsec =>
    {| seconds := sec + 62135596800; nanoseconds := nsec |};
  Time_Format := fun t layout => pretty (seconds t);
  Sprintf_g := fun v => "%g";
  Sprintf_v := fun v => "%v";
  strconv_escaped := fun s => s;
  unicode_To_UpperCase := fun r => r;
  float64_to_int_overflow := fun v => int64_min;
  FgString := fun s r g b => s;
  BgString := fun s r g b => s;
  tabwriter_Flush := fun w text => text;
  DefaultOptions :=
    {| TimeFormat := "Jan _2 15:04:05"; Truncates := true; TruncateLength := 15;
       SortLongest := true; SkipUnchanged := true; LightBg := false;
       KeyRGB := {| R := 1; G := 108; B := 89 |};
       ValRGB := {| R := 125; G := 125; B := 125 |};
       shouldShowKey := fun k => true;
       shouldShowUnchanged := fun k => false |}
|}.

(** A handler as Go's zero value leaves it. *)
Definition new_handler : JSONHandler :=
  {| buf := None; out := None; truncKV := 0; Opts := None;
     Level := EmptyString; Time := time_zero; Message := EmptyString;
     Fields := ∅; last := ∅ |}.

(** The options of the plain instance with the truncation limit [n]. *)
Definition options_limit (n : Z) : HandlerOptions :=
  {| TimeFormat := "Jan _2 15:04:05"; Truncates := true; TruncateLength := n;
     SortLongest := true; SkipUnchanged := true; LightBg := false;
     KeyRGB := {| R := 1; G := 108; B := 89 |};
     ValRGB := {| R := 125; G := 125; B := 125 |};
     shouldShowKey := fun k => true;
     shouldShowUnchanged := fun k => false |}.

(** A handler between [TryHandle] and [Prettify]: the record of a line
    with the fields [env="production"], [count=3] and [region="eu"], after a
    line whose fields were [env="production"] and [count=2]; the truncation
    limit is [n]. *)
Definition handler_deploy (n : Z) : JSONHandler :=
  {| buf := Some EmptyString; out := Some tabwriter_NewWriter; truncKV := 0;
     Opts := Some (options_limit n);
     Level := "info"; Time := time_zero; Message := "deploy";
     Fields := list_to_map [("env", quoted "production"); ("count", "3");
                            ("region", quoted "eu")];
     last := list_to_map [("env", quoted "production"); ("count", "2")] |}.

(** The letter e with an acute accent, U+00E9: the two bytes C3 A9. *)
Definition e_acute : string := String "195" (String "169" EmptyString).

(** A handler whose record has the one field [name], holding the display
    string of the JSON string made of the letter n and [e_acute]; the
    truncation limit is [n]. *)
Definition handler_ne (n : Z) : JSONHandler :=
  {| buf := Some EmptyString; out := Some tabwriter_NewWriter; truncKV := 0;
     Opts := Some (options_limit n);
     Level := "info"; Time := time_zero; Message := "deploy";
     Fields := list_to_map [("name", quoted ("n" +:+ e_acute))];
     last := ∅ |}.

(** * Further vocabulary *)

(** ** Lines, keys and stored fields *)

(** [sub] occurs in [d] as a contiguous run of bytes. *)
Definition occurs (sub d : string) : Prop := exists a b, d = a +:+ sub +:+ b.

(** The six key names [UnmarshalJSON] looks up. *)
Definition reserved (k : string) : bool :=
  String.eqb k "time" || String.eqb k "ts" || String.eqb k "msg"
  || String.eqb k "message" || String.eqb k "level" || String.eqb k "lvl".

(** The string a decoded line holds under [k], if it holds one. *)
Definition stringAt (raw : gmap string value) (k : string) : option string :=
  match raw !! k with Some (VString s) => Some s | _ => None end.

(** The level of a decoded line: the string under "level", else the string
    under "lvl", else four question marks. *)
Definition levelOf (raw : gmap string value) : string :=
  match stringAt raw "level" with
  | Some s => s
  | None => match stringAt raw "lvl" with Some s => s | None => "????" end
  end.

(** The message of a decoded line: the string under "msg", else the string
    under "message", else the empty string. *)
Definition messageOf (raw : gmap string value) : string :=
  match stringAt raw "msg" with
  | Some s => s
  | None => match stringAt raw "message" with Some s => s | None => EmptyString end
  end.

Section StoredFields.

Context {E : External}.

(** The field the loop of lines 106-120 leaves under [k] when the line
    still holds [k]: the display string of the line's value; the field the
    handler held before when the line has no such key. *)
Definition storedField (h : JSONHandler) (raw : gmap string value) (k : string)
    : option string :=
  match raw !! k with
  | Some val => Some (formatValue val)
  | None => Fields h !! k
  end.

End StoredFields.

(** ** Shown fields *)

(** Whether the loop of [joinKVs] goes on to build a token for the field
    [k = v] (lines 179-187): the visibility predicate accepts [k], and, with
    skip-unchanged on, the diff state does not hold the same [v] under [k]
    unless the override forces [k]. *)
Definition shown (opts : HandlerOptions) (lastFields : gmap string string)
    (skipUnchanged : bool) (k v : string) : bool :=
  shouldShowKey opts k
  && negb (skipUnchanged
           && match lastFields !! k with
              | Some lastV => String.eqb lastV v && negb (shouldShowUnchanged opts k)
              | None => false
              end).

(** ** Upper-casing byte by byte *)

(** The upper-case letter of a lower-case ASCII letter; any other byte is
    left as it is. *)
Definition ascii_upper (c : ascii) : ascii :=
  if (0x61 <=? byte_of c) && (byte_of c <=? 0x7A) then char_of (byte_of c - 0x20)
  else c.

Fixpoint map_bytes (f : ascii -> ascii) (s : string) : string :=
  match s with
  | EmptyString => EmptyString
  | String c s' => String (f c) (map_bytes f s')
  end.

Section VisitingOrder.

Context {E : External}.

(** [joinKVs] with the order in which [range h.Fields] visits the fields
    made explicit: Go leaves the iteration order of a map unspecified, and
    [visited] is the list of fields in the order of one run. *)
Definition joinKVs_visiting (h : JSONHandler) (skipUnchanged : bool) (sep : string)
    (visited : list (string * string)) : option (list string) :=
  match Opts h with
  | None => None
  | Some opts =>
      match collectKVs opts (last h) skipUnchanged sep visited with
      | Some kv => Some (sortKVs opts kv)
      | None => None
      end
  end.

End VisitingOrder.

(** ** Two more lines for the plain instance *)

(** [{"time":"2024-01-01T00:00:00Z","ts":7,"msg":"a","message":"b","level":"info","lvl":"x"}]:
    every reserved key together with the key that shadows it. *)
Definition line_shadowed : string :=
  "{" +:+ quoted "time" +:+ ":" +:+ quoted "2024-01-01T00:00:00Z" +:+ ","
  +:+ quoted "ts" +:+ ":7,"
  +:+ quoted "msg" +:+ ":" +:+ quoted "a" +:+ ","
  +:+ quoted "message" +:+ ":" +:+ quoted "b" +:+ ","
  +:+ quoted "level" +:+ ":" +:+ quoted "info" +:+ ","
  +:+ quoted "lvl" +:+ ":" +:+ quoted "x" +:+ "}".

Definition raw_shadowed : gmap string value :=
  list_to_map
    [("time", VString "2024-01-01T00:00:00Z"); ("ts", VFloat64 7%float);
     ("msg", VString "a"); ("message", VString "b");
     ("level", VString "info"); ("lvl", VString "x")].

(** [{"ts":1700000000,"msg":"tick"}]: seconds since the epoch. *)
Definition line_ticks : string :=
  "{" +:+ quoted "ts" +:+ ":1700000000," +:+ quoted "msg" +:+ ":" +:+ quoted "tick"
  +:+ "}".

Definition raw_ticks : gmap string value :=
  list_to_map
    [("ts", VFloat64 (float64_of_Z 1700000000)); ("msg", VString "tick")].

(** The plain instance with a decoder that also knows these two lines. *)
Definition wider_External : External := {|
  json_Unmarshal := fun d =>
    if String.eqb d line_shadowed then Some raw_shadowed
    else if String.eqb d line_ticks then Some raw_ticks
    else @json_Unmarshal plain_External d;
  tryParseTime := @tryParseTime plain_External;
  time_Unix := @time_Unix plain_External;
  Time_Format := @Time_Format plain_External;
  Sprintf_g := @Sprintf_g plain_External;
  Sprintf_v := @Sprintf_v plain_External;
  strconv_escaped := @strconv_escaped plain_External;
  unicode_To_UpperCase := @unicode_To_UpperCase plain_External;
  float64_to_int_overflow := @float64_to_int_overflow plain_External;
  FgString := @FgString plain_External;
  BgString := @BgString plain_External;
  tabwriter_Flush := @tabwriter_Flush plain_External;
  DefaultOptions := @DefaultOptions plain_External
|}.

(** * Facts *)

(** ** The order of Go strings *)

Lemma str_lt_irrefl (a : string) : str_lt a a = false.
Proof.
  induction a as [|x a IH]; simpl; [reflexivity|].
  rewrite Nat.ltb_irrefl, Nat.eqb_refl, IH. reflexivity.
Qed.

Lemma str_lt_trans (a b c : string) :
  str_lt a b = true -> str_lt b c = true -> str_lt a c = true.
Proof.
  revert b c. induction a as [|x a IH]; intros [|y b] [|z c]; simpl; try discriminate; auto.
  rewrite !orb_true_iff, !andb_true_iff, !Nat.ltb_lt, !Nat.eqb_eq.
  intros [Hxy | [Hxy Hab]] [Hyz | [Hyz Hbc]].
  - left. lia.
  - left. lia.
  - left. lia.
  - right. split; [lia | eauto].
Qed.

Lemma str_lt_asym (a b : string) : str_lt a b = true -> str_lt b a = false.
Proof.
  intros Hab. destruct (str_lt b a) eqn:Hba; [|reflexivity].
  pose proof (str_lt_trans _ _ _ Hab Hba) as H.
  rewrite str_lt_irrefl in H. discriminate.
Qed.

Lemma str_lt_connex (a b : string) :
  str_lt a b = false -> str_lt b a = false -> a = b.
Proof.
  revert b. induction a as [|x a IH]; intros [|y b]; simpl; try discriminate; auto.
  rewrite !orb_false_iff, !andb_false_iff, !Nat.ltb_ge, !Nat.eqb_neq.
  intros [Hxy Hab] [Hyx Hba].
  assert (nat_of_ascii x = nat_of_ascii y) as Hc by lia.
  assert (x = y) as ->.
  { rewrite <- (ascii_nat_embedding x), <- (ascii_nat_embedding y), Hc. reflexivity. }
  f_equal. apply IH.
  - destruct Hab as [Hab|Hab]; [lia | exact Hab].
  - destruct Hba as [Hba|Hba]; [lia | exact Hba].
Qed.

Lemma str_le_trans (a b c : string) : str_le a b -> str_le b c -> str_le a c.
Proof.
  unfold str_le. intros Hab Hbc.
  destruct (str_lt c a) eqn:Hca; [|reflexivity].
  destruct (str_lt c b) eqn:Hcb; [discriminate|].
  destruct (str_lt b c) eqn:Hbc'.
  - pose proof (str_lt_trans _ _ _ Hbc' Hca) as H. congruence.
  - assert (b = c) as -> by (apply str_lt_connex; assumption). congruence.
Qed.

Lemma str_le_antisym (a b : string) : str_le a b -> str_le b a -> a = b.
Proof. unfold str_le. intros Hab Hba. apply str_lt_connex; assumption. Qed.

(** ** The stable insertion sort *)

Section Sorting.

Variable less : string -> string -> bool.

Hypothesis less_asym : forall a b, less a b = true -> less b a = false.
Hypothesis not_after_trans :
  forall a b c, not_after less a b -> not_after less b c -> not_after less a c.

Lemma sort_insert_perm (x : string) (l : list string) :
  sort_insert less x l ≡ₚ x :: l.
Proof.
  induction l as [|y l IH]; simpl; [reflexivity|].
  destruct (less y x); [|reflexivity].
  rewrite IH. apply perm_swap.
Qed.

Lemma sort_Stable_perm (l : list string) : sort_Stable less l ≡ₚ l.
Proof.
  induction l as [|x l IH]; simpl; [reflexivity|].
  rewrite sort_insert_perm. constructor. exact IH.
Qed.

Lemma sort_insert_refined (prior : string -> string -> Prop) (x : string)
    (l : list string) :
  Forall (prior x) l ->
  StronglySorted (refined less prior) l ->
  StronglySorted (refined less prior) (sort_insert less x l).
Proof.
  induction l as [|y l IH]; intros Hx Hs; simpl.
  - repeat constructor.
  - inversion Hs as [|? ? Hs' Hall]; subst.
    inversion Hx as [|? ? Hxy Hxl]; subst.
    destruct (less y x) eqn:Hyx.
    + constructor; [apply IH; assumption|].
      rewrite Forall_forall. intros z Hz.
      rewrite sort_insert_perm in Hz.
      apply elem_of_cons in Hz as [-> | Hz].
      * split; [apply less_asym; exact Hyx | left; exact Hyx].
      * rewrite Forall_forall in Hall. auto.
    + constructor; [exact Hs|].
      constructor.
      * split; [exact Hyx | right; exact Hxy].
      * rewrite Forall_forall in Hall, Hxl |- *. intros z Hz. split.
        -- apply (not_after_trans x y z); [exact Hyx | apply Hall, Hz].
        -- right. auto.
Qed.

Lemma sort_Stable_refined (prior : string -> string -> Prop) (l : list string) :
  StronglySorted prior l ->
  StronglySorted (refined less prior) (sort_Stable less l).
Proof.
  induction 1 as [|x l Hs IH Hx]; simpl; [constructor|].
  apply sort_insert_refined; [|exact IH].
  rewrite Forall_forall in Hx |- *. intros z Hz.
  rewrite sort_Stable_perm in Hz. auto.
Qed.

End Sorting.

Lemma StronglySorted_impl (P Q : string -> string -> Prop) (l : list string) :
  (forall a b, P a b -> Q a b) -> StronglySorted P l -> StronglySorted Q l.
Proof.
  intros HPQ. induction 1 as [|x l Hs IH Hx]; constructor; [exact IH|].
  eapply Forall_impl; [exact Hx | auto].
Qed.

Lemma StronglySorted_any (l : list string) :
  StronglySorted (fun _ _ => True) l.
Proof.
  induction l; constructor; [assumption|]. apply Forall_forall. auto.
Qed.

Lemma sort_Strings_perm (l : list string) : sort_Strings l ≡ₚ l.
Proof. apply sort_Stable_perm. Qed.

Lemma sort_Strings_sorted (l : list string) :
  StronglySorted str_le (sort_Strings l).
Proof.
  unfold sort_Strings.
  apply (StronglySorted_impl (refined str_lt (fun _ _ => True))).
  { intros a b [H _]. exact H. }
  apply sort_Stable_refined.
  - apply str_lt_asym.
  - apply str_le_trans.
  - apply StronglySorted_any.
Qed.

(** [sort.Strings] has one possible result for the strings it is given. *)
Lemma sort_Strings_unique (l l' : list string) :
  l ≡ₚ l' -> sort_Strings l = sort_Strings l'.
Proof.
  intros Hp.
  apply (StronglySorted_unique_strong str_le).
  - intros a b _ _. apply str_le_antisym.
  - apply sort_Strings_sorted.
  - apply sort_Strings_sorted.
  - rewrite !sort_Strings_perm. exact Hp.
Qed.

Lemma byLongest_sorted (l : list string) :
  StronglySorted str_le l ->
  StronglySorted len_lex_le (sort_Stable byLongest_Less l).
Proof.
  intros Hs.
  apply (StronglySorted_impl (refined byLongest_Less str_le)).
  { unfold refined, not_after, byLongest_Less, len_lex_le.
    intros a b [Hab [Hlt | Hle]].
    - left. lia.
    - destruct (Z.eq_dec (len a) (len b)); [right; auto | left; lia]. }
  apply sort_Stable_refined.
  - unfold byLongest_Less. intros a b. lia.
  - unfold not_after, byLongest_Less. intros a b c. lia.
  - exact Hs.
Qed.

(** ** The loop of [joinKVs] *)

Section JoinKVs.

Context {E : External}.

Variable opts : HandlerOptions.
Variable lastFields : gmap string string.
Variable skipUnchanged : bool.
Variable sep : string.

(** The tokens do not depend on the order the fields are visited in, up to
    their own order; and whether an iteration panics does not either. *)
Lemma collectKVs_perm (l l' : list (string * string)) :
  l ≡ₚ l' ->
  match collectKVs opts lastFields skipUnchanged sep l,
        collectKVs opts lastFields skipUnchanged sep l' with
  | Some kv, Some kv' => kv ≡ₚ kv'
  | None, None => True
  | _, _ => False
  end.
Proof.
  induction 1 as [| [k v] l l' Hp IH | [k v] [k' v'] l | l l' l'' Hp IH Hp' IH'];
    simpl.
  - reflexivity.
  - destruct (kvToken opts lastFields skipUnchanged sep k v); try exact I;
      [exact IH|].
    destruct (collectKVs _ _ _ _ l), (collectKVs _ _ _ _ l');
      try exact IH. constructor. exact IH.
  - destruct (kvToken opts lastFields skipUnchanged sep k v),
      (kvToken opts lastFields skipUnchanged sep k' v'),
      (collectKVs opts lastFields skipUnchanged sep l);
      try exact I; try reflexivity. apply perm_swap.
  - destruct (collectKVs _ _ _ _ l), (collectKVs _ _ _ _ l'),
      (collectKVs _ _ _ _ l''); try contradiction; try exact I.
    etransitivity; eassumption.
Qed.

(** The loop panics only where one of its iterations does. *)
Lemma collectKVs_total (l : list (string * string)) :
  (forall k v, (k, v) ∈ l -> kvToken opts lastFields skipUnchanged sep k v <> Panicked) ->
  exists kv, collectKVs opts lastFields skipUnchanged sep l = Some kv.
Proof.
  induction l as [| [k v] l IH]; intros Hl; simpl; [eauto|].
  destruct IH as [kv Hkv].
  { intros k' v' Hin. apply Hl. right. exact Hin. }
  rewrite Hkv.
  destruct (kvToken opts lastFields skipUnchanged sep k v) eqn:Hk; eauto.
  exfalso. apply (Hl k v); [left | exact Hk].
Qed.

(** The tokens are those of the fields that are neither skipped nor panic. *)
Lemma collectKVs_elem_of (l : list (string * string)) (kv : list string)
    (t : string) :
  collectKVs opts lastFields skipUnchanged sep l = Some kv ->
  t ∈ kv <->
  exists k v, (k, v) ∈ l /\ kvToken opts lastFields skipUnchanged sep k v = Token t.
Proof.
  revert kv. induction l as [| [k v] l IH]; intros kv; simpl.
  - intros [= <-]. split; [intros H; inversion H | intros (k & v & H & _); inversion H].
  - destruct (kvToken opts lastFields skipUnchanged sep k v) eqn:Hk; [ | | discriminate].
    + intros Hkv. rewrite (IH kv Hkv). split.
      * intros (k' & v' & Hin & Ht). exists k', v'. split; [right; exact Hin | exact Ht].
      * intros (k' & v' & Hin & Ht). apply elem_of_cons in Hin as [Heq | Hin].
        -- injection Heq as -> ->. congruence.
        -- eauto.
    + destruct (collectKVs opts lastFields skipUnchanged sep l) as [kvs|] eqn:Hrest;
        [|discriminate].
      intros [= <-]. rewrite elem_of_cons, (IH kvs eq_refl). split.
      * intros [-> | (k' & v' & Hin & Ht)].
        -- exists k, v. split; [left | exact Hk].
        -- exists k', v'. split; [right; exact Hin | exact Ht].
      * intros (k' & v' & Hin & Ht). apply elem_of_cons in Hin as [Heq | Hin].
        -- injection Heq as -> ->. left. congruence.
        -- right. eauto.
Qed.

(** A field that is skipped leaves the tokens as they are without it. *)
Lemma collectKVs_skipped (k v : string) (l : list (string * string)) :
  kvToken opts lastFields skipUnchanged sep k v = Skipped ->
  collectKVs opts lastFields skipUnchanged sep ((k, v) :: l)
  = collectKVs opts lastFields skipUnchanged sep l.
Proof. intros Hk. simpl. rewrite Hk. reflexivity. Qed.

End JoinKVs.

Section Render.

Context {E : External}.

(** The slice of [truncateValue] is within bounds when the limit is not
    negative: only a negative [TruncateLength] makes truncation panic. *)
Lemma truncateValue_total (opts : HandlerOptions) (v : string) :
  (Truncates opts = true -> 0 <= TruncateLength opts) ->
  exists vstr, truncateValue opts v = Some vstr.
Proof.
  intros Hn. unfold truncateValue.
  destruct (Truncates opts); simpl; [|eauto].
  destruct (len v >? TruncateLength opts) eqn:Hlen; [|eauto].
  unfold slice_to.
  assert ((0 <=? TruncateLength opts) && (TruncateLength opts <=? len v) = true) as ->.
  { specialize (Hn eq_refl). apply andb_true_intro. split; lia. }
  eauto.
Qed.

Lemma kvToken_total (opts : HandlerOptions) (lastFields : gmap string string)
    (skipUnchanged : bool) (sep k v : string) :
  (Truncates opts = true -> 0 <= TruncateLength opts) ->
  kvToken opts lastFields skipUnchanged sep k v <> Panicked.
Proof.
  intros Hn. unfold kvToken.
  destruct (truncateValue_total opts v Hn) as [vstr ->].
  repeat match goal with |- context [if ?b then _ else _] => destruct b end;
    discriminate.
Qed.

(** [joinKVs] returns when the options are set and the limit is not
    negative. *)
Lemma joinKVs_total (h : JSONHandler) (opts : HandlerOptions)
    (skipUnchanged : bool) (sep : string) :
  Opts h = Some opts ->
  (Truncates opts = true -> 0 <= TruncateLength opts) ->
  exists kv,
    collectKVs opts (last h) skipUnchanged sep (map_to_list (Fields h)) = Some kv
    /\ joinKVs h skipUnchanged sep = Some (sortKVs opts kv).
Proof.
  intros Ho Hn. unfold joinKVs. rewrite Ho.
  destruct (collectKVs_total opts (last h) skipUnchanged sep (map_to_list (Fields h)))
    as [kv Hkv].
  { intros k v _. apply kvToken_total. exact Hn. }
  exists kv. rewrite Hkv. auto.
Qed.

Lemma sortKVs_perm (opts : HandlerOptions) (kv : list string) :
  sortKVs opts kv ≡ₚ kv.
Proof.
  unfold sortKVs. destruct (SortLongest opts).
  - rewrite sort_Stable_perm. apply sort_Strings_perm.
  - apply sort_Strings_perm.
Qed.

Lemma sortKVs_unique (opts : HandlerOptions) (kv kv' : list string) :
  kv ≡ₚ kv' -> sortKVs opts kv = sortKVs opts kv'.
Proof.
  intros Hp. unfold sortKVs. rewrite (sort_Strings_unique kv kv' Hp). reflexivity.
Qed.

(** Go visits the entries of a map in an unspecified order.  Whatever order
    the fields are visited in, [joinKVs] returns the same slice (and panics
    in the same cases). *)
Lemma joinKVs_order_irrelevant (h : JSONHandler) (opts : HandlerOptions)
    (skipUnchanged : bool) (sep : string) (visited : list (string * string)) :
  Opts h = Some opts ->
  visited ≡ₚ map_to_list (Fields h) ->
  joinKVs h skipUnchanged sep
  = match collectKVs opts (last h) skipUnchanged sep visited with
    | Some kv => Some (sortKVs opts kv)
    | None => None
    end.
Proof.
  intros Ho Hp. unfold joinKVs. rewrite Ho.
  pose proof (collectKVs_perm opts (last h) skipUnchanged sep _ _ Hp) as H.
  destruct (collectKVs opts (last h) skipUnchanged sep visited),
    (collectKVs opts (last h) skipUnchanged sep (map_to_list (Fields h)));
    try contradiction; [|reflexivity].
  f_equal. symmetry. apply sortKVs_unique. exact H.
Qed.

(** The tokens [joinKVs] returns are those of the fields that are not
    skipped. *)
Lemma joinKVs_elem_of (h : JSONHandler) (opts : HandlerOptions)
    (skipUnchanged : bool) (sep : string) (kv : list string) (t : string) :
  Opts h = Some opts ->
  joinKVs h skipUnchanged sep = Some kv ->
  t ∈ kv <->
  exists k v, Fields h !! k = Some v
              /\ kvToken opts (last h) skipUnchanged sep k v = Token t.
Proof.
  intros Ho. unfold joinKVs. rewrite Ho.
  destruct (collectKVs opts (last h) skipUnchanged sep (map_to_list (Fields h)))
    as [kv0|] eqn:Hc; [|discriminate].
  intros [= <-]. rewrite sortKVs_perm.
  rewrite (collectKVs_elem_of opts (last h) skipUnchanged sep _ _ t Hc).
  split; intros (k & v & Hin & Ht); exists k, v; split; auto.
  - apply elem_of_map_to_list. exact Hin.
  - apply elem_of_map_to_list. exact Hin.
Qed.

End Render.

(** ** Slices of strings *)

Lemma substring_0_length (n : nat) (s : string) :
  (n <= String.length s)%nat -> String.length (String.substring 0 n s) = n.
Proof.
  revert s. induction n as [|n IH]; intros [|c s] Hn; simpl in *; try lia; auto.
  rewrite IH; [reflexivity | lia].
Qed.

Lemma substring_0_prefix (n : nat) (s : string) :
  String.prefix (String.substring 0 n s) s = true.
Proof.
  revert s. induction n as [|n IH]; intros [|c s]; simpl; auto.
  destruct (ascii_dec c c) as [_|Hc]; [apply IH | contradiction].
Qed.

Lemma length_append (a b : string) :
  String.length (a +:+ b) = (String.length a + String.length b)%nat.
Proof. induction a as [|c a IH]; simpl; [reflexivity | rewrite IH; reflexivity]. Qed.

Lemma len_append (a b : string) : len (a +:+ b) = len a + len b.
Proof. unfold len. rewrite length_append. lia. Qed.

Lemma substring_0_append (n : nat) (a b : string) :
  (n <= String.length a)%nat ->
  String.substring 0 n (a +:+ b) = String.substring 0 n a.
Proof.
  revert a. induction n as [|n IH]; intros [|c a] Hn; simpl in *; try lia.
  - destruct b; reflexivity.
  - reflexivity.
  - rewrite IH; [reflexivity | lia].
Qed.

Section RendererSpec.

Context {E : External}.

Lemma truncateValue_spec (opts : HandlerOptions) (v : string) :
  Truncates opts = true -> 0 <= TruncateLength opts ->
  truncateValue opts v = Some (spec_truncated (TruncateLength opts) v).
Proof.
  intros Ht Hn. unfold truncateValue, spec_truncated, slice_to. rewrite Ht. simpl.
  destruct (len v >? TruncateLength opts) eqn:Hlen; [|reflexivity].
  assert ((0 <=? TruncateLength opts) && (TruncateLength opts <=? len v) = true) as ->.
  { apply andb_true_intro. split; lia. }
  reflexivity.
Qed.

Lemma kvToken_shown (opts : HandlerOptions) (lastFields : gmap string string)
    (skipUnchanged : bool) (sep k v vstr : string) :
  kvToken opts lastFields skipUnchanged sep k v <> Skipped ->
  truncateValue opts v = Some vstr ->
  kvToken opts lastFields skipUnchanged sep k v = Token (tokenOf opts sep k vstr).
Proof.
  unfold kvToken, tokenOf. intros Hs ->.
  repeat match goal with
         | |- context [if ?b then _ else _] => destruct b
         end; try reflexivity; contradiction.
Qed.

(** C6 (amended).  With truncation on and a limit [n] that is not negative,
    a field the renderer shows has its value cut to its first [n] bytes
    followed by "..." when the value is longer than [n] bytes, and left as
    it is otherwise; the token [joinKVs] returns for the field holds that
    value. *)
Theorem C6_truncation (h : JSONHandler) (opts : HandlerOptions)
    (skipUnchanged : bool) (sep k v : string) :
  Opts h = Some opts ->
  Truncates opts = true ->
  0 <= TruncateLength opts ->
  Fields h !! k = Some v ->
  kvToken opts (last h) skipUnchanged sep k v <> Skipped ->
  truncateValue opts v = Some (spec_truncated (TruncateLength opts) v)
  /\ (len v > TruncateLength opts ->
      exists cut,
        spec_truncated (TruncateLength opts) v = cut +:+ "..."
        /\ len cut = TruncateLength opts
        /\ String.prefix cut v = true)
  /\ (len v <= TruncateLength opts ->
      spec_truncated (TruncateLength opts) v = v)
  /\ exists kv,
      joinKVs h skipUnchanged sep = Some kv
      /\ tokenOf opts sep k (spec_truncated (TruncateLength opts) v) ∈ kv.
Proof.
  intros Ho Ht Hn Hk Hshown.
  pose proof (truncateValue_spec opts v Ht Hn) as Htr.
  split; [exact Htr|]. split; [|split].
  - intros Hlen. exists (String.substring 0 (Z.to_nat (TruncateLength opts)) v).
    unfold spec_truncated.
    assert ((len v >? TruncateLength opts) = true) as -> by lia.
    split; [reflexivity|]. split; [|apply substring_0_prefix].
    unfold len in *. rewrite substring_0_length; lia.
  - intros Hlen. unfold spec_truncated.
    assert ((len v >? TruncateLength opts) = false) as -> by lia. reflexivity.
  - destruct (joinKVs_total h opts skipUnchanged sep Ho) as (kv & _ & Hj).
    { intros _. exact Hn. }
    eexists. split; [exact Hj|].
    apply (joinKVs_elem_of h opts skipUnchanged sep _ _ Ho Hj).
    exists k, v. split; [exact Hk|].
    apply kvToken_shown; assumption.
Qed.

(** C3.  With skip-unchanged on, for a key [k] the visibility predicate
    accepts and that the record maps to [v]: when the previous record's
    fields map [k] to the same [v] and the override does not force [k] to
    show, the iteration for [k] appends nothing and the output is the one of
    the record without [k]; when the previous value differs (or there is
    none), the token of [k] is in the output. *)
Theorem C3_skip_unchanged (h : JSONHandler) (opts : HandlerOptions)
    (sep k v : string) :
  Opts h = Some opts ->
  (Truncates opts = true -> 0 <= TruncateLength opts) ->
  shouldShowKey opts k = true ->
  Fields h !! k = Some v ->
  (last h !! k = Some v -> shouldShowUnchanged opts k = false ->
   kvToken opts (last h) true sep k v = Skipped
   /\ joinKVs h true sep = joinKVs (set_Fields h (delete k (Fields h))) true sep)
  /\ (last h !! k <> Some v ->
      exists kv vstr,
        joinKVs h true sep = Some kv
        /\ truncateValue opts v = Some vstr
        /\ tokenOf opts sep k vstr ∈ kv).
Proof.
  intros Ho Hn Hshow Hk. split.
  - intros Hlast Hunch.
    assert (kvToken opts (last h) true sep k v = Skipped) as Hskip.
    { unfold kvToken. rewrite Hshow, Hlast, Hunch, String.eqb_refl. reflexivity. }
    split; [exact Hskip|].
    rewrite (joinKVs_order_irrelevant h opts true sep
               ((k, v) :: map_to_list (delete k (Fields h))) Ho).
    + rewrite collectKVs_skipped by exact Hskip.
      unfold joinKVs. simpl. rewrite Ho. reflexivity.
    + apply map_to_list_delete. exact Hk.
  - intros Hlast.
    destruct (joinKVs_total h opts true sep Ho Hn) as (kv & _ & Hj).
    destruct (truncateValue_total opts v Hn) as [vstr Hv].
    exists (sortKVs opts kv), vstr. split; [exact Hj|]. split; [exact Hv|].
    apply (joinKVs_elem_of h opts true sep _ _ Ho Hj).
    exists k, v. split; [exact Hk|].
    apply kvToken_shown; [|exact Hv].
    unfold kvToken. rewrite Hshow, Hv. simpl.
    destruct (last h !! k) as [lastV|] eqn:Hl; [|discriminate].
    destruct (String.eqb_spec lastV v) as [->|Hne]; [contradiction|].
    simpl. discriminate.
Qed.

(** C4.  The tokens [joinKVs] returns are the tokens of the shown fields in
    lexicographic order; with sort-longest on, that list is sorted once more
    by a stable sort on the length, which leaves it in ascending length and,
    among tokens of one length, in lexicographic order. *)
Theorem C4_token_order (h : JSONHandler) (opts : HandlerOptions)
    (skipUnchanged : bool) (sep : string) :
  Opts h = Some opts ->
  (Truncates opts = true -> 0 <= TruncateLength opts) ->
  exists tokens kv,
    collectKVs opts (last h) skipUnchanged sep (map_to_list (Fields h)) = Some tokens
    /\ joinKVs h skipUnchanged sep = Some kv
    /\ kv ≡ₚ tokens
    /\ (SortLongest opts = false -> StronglySorted str_le kv)
    /\ (SortLongest opts = true ->
        kv = sort_Stable byLongest_Less (sort_Strings tokens)
        /\ StronglySorted len_lex_le kv).
Proof.
  intros Ho Hn.
  destruct (joinKVs_total h opts skipUnchanged sep Ho Hn) as (tokens & Hc & Hj).
  exists tokens, (sortKVs opts tokens).
  split; [exact Hc|]. split; [exact Hj|]. split; [apply sortKVs_perm|].
  unfold sortKVs. split; intros ->.
  - apply sort_Strings_sorted.
  - split; [reflexivity|]. apply byLongest_sorted, sort_Strings_sorted.
Qed.

(** C9 (amended).  Truncation works on the display string.  For a string
    value the display string is the escaped string between two quotes, so
    its length is two more than the escaped string's; with a limit [n] of
    at least 1, a display string longer than [n] is shown as the opening
    quote, the first [n - 1] bytes of the escaped string, and "...", the
    closing quote being cut off; one of length at most [n] is shown whole. *)
Theorem C9_quoted_truncation (opts : HandlerOptions) (s : string) :
  Truncates opts = true ->
  1 <= TruncateLength opts ->
  len (formatValue (VString s)) = len (strconv_escaped s) + 2
  /\ (len (strconv_escaped s) + 2 > TruncateLength opts ->
      truncateValue opts (formatValue (VString s))
      = Some (DQ +:+ String.substring 0 (Z.to_nat (TruncateLength opts - 1))
                       (strconv_escaped s) +:+ "..."))
  /\ (len (strconv_escaped s) + 2 <= TruncateLength opts ->
      truncateValue opts (formatValue (VString s))
      = Some (DQ +:+ strconv_escaped s +:+ DQ)).
Proof.
  intros Ht Hn.
  assert (len (formatValue (VString s)) = len (strconv_escaped s) + 2) as Hlen.
  { simpl. unfold Sprintf_q. rewrite !len_append. unfold DQ, len. simpl. lia. }
  split; [exact Hlen|]. split; intros Hcmp.
  - rewrite truncateValue_spec by (assumption || lia).
    unfold spec_truncated. rewrite Hlen.
    assert ((len (strconv_escaped s) + 2 >? TruncateLength opts) = true) as -> by lia.
    f_equal. simpl. unfold Sprintf_q.
    replace (Z.to_nat (TruncateLength opts))
      with (S (Z.to_nat (TruncateLength opts - 1))) by lia.
    unfold DQ. simpl.
    change (EmptyString +:+ strconv_escaped s +:+ String "034" EmptyString)
      with (strconv_escaped s +:+ String "034" EmptyString).
    rewrite (substring_0_append _ (strconv_escaped s)); [reflexivity|].
    unfold len in Hcmp. lia.
  - rewrite truncateValue_spec by (assumption || lia).
    unfold spec_truncated. rewrite Hlen.
    assert ((len (strconv_escaped s) + 2 >? TruncateLength opts) = false) as -> by lia.
    reflexivity.
Qed.

End RendererSpec.

Section Normalizer.

Context {E : External}.

Lemma storeFields_lookup (h : JSONHandler) (raw : gmap string value) (k : string) :
  Fields (storeFields h raw) !! k
  = match raw !! k with
    | Some val => Some (formatValue val)
    | None => Fields h !! k
    end.
Proof.
  unfold storeFields. simpl. revert k.
  apply (map_fold_weak_ind
           (fun (r : gmap string string) (m : gmap string value) =>
              forall k, r !! k = match m !! k with
                                 | Some val => Some (formatValue val)
                                 | None => Fields h !! k
                                 end)).
  - intros k. rewrite lookup_empty. reflexivity.
  - intros i x m r Hi IH k. destruct (decide (i = k)) as [->|Hne].
    + rewrite !lookup_insert_eq. reflexivity.
    + rewrite !lookup_insert_ne by exact Hne. apply IH.
Qed.

(** The timestamp stage leaves every field of the handler but [Time], and
    returns [raw] without the key it consumed. *)
Lemma extractTime_frame (h h' : JSONHandler) (raw raw' : gmap string value)
    (err : option error) :
  extractTime h raw = (err, h', raw') ->
  (exists t, h' = set_Time h t) \/ h' = h.
Proof.
  unfold extractTime.
  destruct (assert_string (raw !! "time")) as [s1 [|]];
    [| destruct (assert_string (raw !! "ts")) as [s2 [|]] ].
  - destruct (tryParseTime s1) as [t [|]]; simpl; intros [= <- <- <-]; eauto.
  - destruct (tryParseTime s2) as [t [|]]; simpl; intros [= <- <- <-]; eauto.
  - destruct (assert_int64 (raw !! "ts")) as [i [|]];
      [| destruct (assert_float64 (raw !! "ts")) as [f [|]] ];
      intros [= <- <- <-]; eauto.
Qed.

(** When the line has a string timestamp, the stage parses it, stores the
    time read, and fails when no layout matched. *)
Lemma extractTime_string (h : JSONHandler) (raw : gmap string value) (s : string) :
  timestampString raw = Some s ->
  extractTime h raw
  = (if snd (tryParseTime s) then None else Some (UnknownTimestamp s),
     set_Time h (fst (tryParseTime s)),
     delete_key (timeKey raw) raw).
Proof.
  unfold timestampString, extractTime, timeKey, is_string.
  destruct (raw !! "time") as [v1|] eqn:Ht.
  - destruct v1; simpl;
      try (destruct (raw !! "ts") as [[| | |s2| | |]|] eqn:Hts; simpl;
           try discriminate; intros [= ->];
           destruct (tryParseTime s) as [t [|]]; reflexivity).
  - simpl. destruct (raw !! "ts") as [[| | |s2| | |]|] eqn:Hts; simpl;
      try discriminate.
    intros [= ->]. destruct (tryParseTime s) as [t [|]]; reflexivity.
Qed.

(** Without a string timestamp the stage does not fail; the time is set
    only from a number under "ts". *)
Lemma extractTime_no_string (h : JSONHandler) (raw : gmap string value) :
  timestampString raw = None ->
  fst (fst (extractTime h raw)) = None
  /\ snd (extractTime h raw) = delete_key (timeKey raw) raw
  /\ (raw !! "ts" = None -> snd (fst (extractTime h raw)) = h).
Proof.
  unfold timestampString, extractTime, timeKey, is_string, is_int64, is_float64.
  destruct (raw !! "time") as [v1|] eqn:Ht.
  - destruct v1; simpl; try discriminate;
      destruct (raw !! "ts") as [[| | |s2| | |]|] eqn:Hts; simpl;
      try discriminate; intros _; rewrite ?Hts; simpl; repeat split; intros; first [reflexivity | discriminate].
  - simpl. destruct (raw !! "ts") as [[| | |s2| | |]|] eqn:Hts; simpl;
      try discriminate; intros _; rewrite ?Hts; simpl; repeat split; intros; first [reflexivity | discriminate].
Qed.

Lemma extractTime_error (h : JSONHandler) (raw : gmap string value) :
  fst (fst (extractTime h raw)) <> None
  <-> exists s, timestampString raw = Some s /\ snd (tryParseTime s) = false.
Proof.
  destruct (timestampString raw) as [s|] eqn:Hs.
  - rewrite (extractTime_string h raw s Hs). simpl. split.
    + intros H. exists s. split; [reflexivity|].
      destruct (snd (tryParseTime s)); [contradiction | reflexivity].
    + intros (s' & [= <-] & ->). discriminate.
  - destruct (extractTime_no_string h raw Hs) as (-> & _). split.
    + intros H. contradiction.
    + intros (s & [=] & _).
Qed.

Lemma extractMessage_spec (h : JSONHandler) (raw : gmap string value) :
  extractMessage h raw
  = (set_Message h
       (if is_string (raw !! "msg") then fst (assert_string (raw !! "msg"))
        else fst (assert_string (raw !! "message"))),
     delete_key (messageKey raw) raw).
Proof.
  unfold extractMessage, messageKey, is_string.
  destruct (assert_string (raw !! "msg")) as [m [|]]; simpl; [reflexivity|].
  destruct (assert_string (raw !! "message")) as [m' [|]]; reflexivity.
Qed.

Lemma extractLevel_spec (h : JSONHandler) (raw : gmap string value) :
  extractLevel h raw
  = (set_Level h
       (if is_string (raw !! "level") then fst (assert_string (raw !! "level"))
        else if is_string (raw !! "lvl") then fst (assert_string (raw !! "lvl"))
        else "????"),
     delete (levelKey raw) raw).
Proof.
  unfold extractLevel, levelKey, is_string.
  destruct (assert_string (raw !! "level")) as [l [|]]; simpl; [reflexivity|].
  destruct (assert_string (raw !! "lvl")) as [l' [|]]; reflexivity.
Qed.

Lemma timeKey_cases (raw : gmap string value) :
  timeKey raw = Some "time" \/ timeKey raw = Some "ts" \/ timeKey raw = None.
Proof.
  unfold timeKey.
  repeat match goal with |- context [if ?b then _ else _] => destruct b end; auto.
Qed.

Lemma messageKey_cases (raw : gmap string value) :
  messageKey raw = Some "msg" \/ messageKey raw = Some "message"
  \/ messageKey raw = None.
Proof.
  unfold messageKey.
  repeat match goal with |- context [if ?b then _ else _] => destruct b end; auto.
Qed.

Lemma messageKey_after_time (raw : gmap string value) :
  messageKey (delete_key (timeKey raw) raw) = messageKey raw.
Proof.
  unfold messageKey.
  destruct (timeKey_cases raw) as [-> | [-> | ->]]; simpl;
    rewrite ?lookup_delete_ne by discriminate; reflexivity.
Qed.

Lemma levelKey_after_message (raw : gmap string value) :
  levelKey (delete_key (messageKey raw) (delete_key (timeKey raw) raw)) = levelKey raw.
Proof.
  unfold levelKey.
  destruct (timeKey_cases raw) as [-> | [-> | ->]],
    (messageKey_cases raw) as [-> | [-> | ->]]; simpl;
    rewrite ?lookup_delete_ne by discriminate; reflexivity.
Qed.

(** A successful call: the error is nil exactly when the timestamp stage
    passes, and then the handler holds the display strings of what remains
    of the line, over the fields it held before. *)
Lemma UnmarshalJSON_decoded (h : JSONHandler) (data : string)
    (raw : gmap string value) :
  json_Unmarshal data = Some raw ->
  fst (UnmarshalJSON h data) = fst (fst (extractTime h raw))
  /\ (fst (fst (extractTime h raw)) = None ->
      forall k,
        Fields (snd (UnmarshalJSON h data)) !! k
        = match remaining raw !! k with
          | Some val => Some (formatValue val)
          | None => Fields h !! k
          end).
Proof.
  intros Hd. unfold UnmarshalJSON. rewrite Hd.
  destruct (extractTime h raw) as [[err h1] raw1] eqn:Ht.
  destruct err as [err|]; [simpl; split; [reflexivity | discriminate]|].
  rewrite extractMessage_spec, extractLevel_spec. cbn [fst snd].
  split; [reflexivity|]. intros _ k.
  assert (raw1 = delete_key (timeKey raw) raw) as ->.
  { destruct (timestampString raw) as [s|] eqn:Hs.
    - rewrite (extractTime_string h raw s Hs) in Ht. congruence.
    - destruct (extractTime_no_string h raw Hs) as (_ & H & _).
      rewrite Ht in H. exact H. }
  assert (Fields h1 = Fields h) as Hf.
  { destruct (extractTime_frame _ _ _ _ _ Ht) as [[t ->] | ->]; reflexivity. }
  rewrite storeFields_lookup. cbn [Fields set_Level set_Message].
  rewrite messageKey_after_time, levelKey_after_message, Hf.
  reflexivity.
Qed.

(** A failed call leaves the level, the message and the fields alone. *)
Lemma UnmarshalJSON_failed (h : JSONHandler) (data : string) :
  fst (UnmarshalJSON h data) <> None ->
  Level (snd (UnmarshalJSON h data)) = Level h
  /\ Message (snd (UnmarshalJSON h data)) = Message h
  /\ Fields (snd (UnmarshalJSON h data)) = Fields h
  /\ last (snd (UnmarshalJSON h data)) = last h.
Proof.
  unfold UnmarshalJSON.
  destruct (json_Unmarshal data) as [raw|]; [|simpl; auto].
  destruct (extractTime h raw) as [[[err|] h1] raw1] eqn:Ht; simpl.
  - intros _.
    destruct (extractTime_frame _ _ _ _ _ Ht) as [[t ->] | ->]; simpl; auto.
  - rewrite extractMessage_spec, extractLevel_spec. simpl. contradiction.
Qed.

(** No call changes the diff state, the options, or the writer. *)
Lemma UnmarshalJSON_frame (h : JSONHandler) (data : string) :
  last (snd (UnmarshalJSON h data)) = last h
  /\ Opts (snd (UnmarshalJSON h data)) = Opts h
  /\ out (snd (UnmarshalJSON h data)) = out h
  /\ buf (snd (UnmarshalJSON h data)) = buf h.
Proof.
  unfold UnmarshalJSON.
  destruct (json_Unmarshal data) as [raw|]; [|simpl; auto].
  destruct (extractTime h raw) as [[err h1] raw1] eqn:Ht.
  assert (last h1 = last h /\ Opts h1 = Opts h /\ out h1 = out h /\ buf h1 = buf h)
    as (H1 & H2 & H3 & H4).
  { destruct (extractTime_frame _ _ _ _ _ Ht) as [[t ->] | ->]; simpl; auto. }
  destruct err as [err|]; simpl; [auto|].
  rewrite extractMessage_spec, extractLevel_spec. simpl. auto.
Qed.

End Normalizer.

Section NormalizerSpec.

Context {E : External}.

(** C5.  [UnmarshalJSON] returns an error exactly when the line does not
    decode as a JSON object, or the string timestamp of the decoded line
    (the string under "time", else the string under "ts") matches no
    supported layout.  When it does, [TryHandle] reports the line as not
    handled, and the level, the message and the fields are as before the
    call: nothing of the line is kept.  When the decoded line has neither a
    "time" nor a "ts" key, the call succeeds and leaves the time as it was:
    the zero value on a handler that is new or was just cleared. *)
Theorem C5_normalization_failure (h : JSONHandler) (data : string) :
  (fst (UnmarshalJSON h data) <> None
   <-> json_Unmarshal data = None
       \/ exists raw s,
            json_Unmarshal data = Some raw
            /\ timestampString raw = Some s
            /\ snd (tryParseTime s) = false)
  /\ (fst (UnmarshalJSON h data) <> None ->
      fst (TryHandle h data) = false
      /\ Level (snd (UnmarshalJSON h data)) = Level h
      /\ Message (snd (UnmarshalJSON h data)) = Message h
      /\ Fields (snd (UnmarshalJSON h data)) = Fields h
      /\ (snd (TryHandle h data) = h
          \/ snd (TryHandle h data) = clear (snd (UnmarshalJSON h data))))
  /\ (forall raw,
        json_Unmarshal data = Some raw ->
        raw !! "time" = None -> raw !! "ts" = None ->
        fst (UnmarshalJSON h data) = None
        /\ Time (snd (UnmarshalJSON h data)) = Time h
        /\ (Time h = time_zero -> Time (snd (UnmarshalJSON h data)) = time_zero)).
Proof.
  split; [|split].
  - destruct (json_Unmarshal data) as [raw|] eqn:Hd.
    + destruct (UnmarshalJSON_decoded h data raw Hd) as [-> _].
      rewrite extractTime_error. split.
      * intros (s & Hs & Hp). right. exists raw, s. auto.
      * intros [H | (raw' & s & [= <-] & Hs & Hp)]; [discriminate | eauto].
    + unfold UnmarshalJSON. rewrite Hd. simpl. split; [auto | discriminate].
  - intros Herr.
    destruct (UnmarshalJSON_failed h data Herr) as (Hl & Hm & Hf & _).
    repeat split; try assumption.
    + unfold TryHandle.
      destruct (negb _ && negb _); [reflexivity|].
      destruct (UnmarshalJSON h data) as [[err|] h1]; [reflexivity|].
      simpl in Herr. contradiction.
    + unfold TryHandle.
      destruct (negb _ && negb _); [left; reflexivity|].
      destruct (UnmarshalJSON h data) as [[err|] h1]; [right; reflexivity|].
      simpl in Herr. contradiction.
  - intros raw Hd Htime Hts.
    assert (timestampString raw = None) as Hs.
    { unfold timestampString. rewrite Htime, Hts. reflexivity. }
    destruct (extractTime_no_string h raw Hs) as (Herr & _ & Hh).
    specialize (Hh Hts).
    assert (Time (snd (UnmarshalJSON h data)) = Time h) as Ht.
    { unfold UnmarshalJSON. rewrite Hd.
      destruct (extractTime h raw) as [[err h1] raw1]. simpl in Herr, Hh.
      subst err h1. rewrite extractMessage_spec, extractLevel_spec. reflexivity. }
    split; [|split].
    + destruct (UnmarshalJSON_decoded h data raw Hd) as [-> _]. exact Herr.
    + exact Ht.
    + intros Hz. rewrite Ht. exact Hz.
Qed.

(** C7.  After a successful normalization on a handler whose fields are
    empty (a new handler, or one that was just cleared), no key that was
    consumed is a field: "time" when it held a string; otherwise "ts" when
    it held a string or a number; "msg" when it held a string; otherwise
    "message" when it held a string; "level" when it held a string; and
    otherwise "lvl". *)
Theorem C7_reserved_keys_consumed (h h' : JSONHandler) (data : string)
    (raw : gmap string value) :
  Fields h = ∅ ->
  json_Unmarshal data = Some raw ->
  UnmarshalJSON h data = (None, h') ->
  (is_string (raw !! "time") = true -> Fields h' !! "time" = None)
  /\ (is_string (raw !! "time") = false ->
      is_string (raw !! "ts") || is_int64 (raw !! "ts") || is_float64 (raw !! "ts") = true ->
      Fields h' !! "ts" = None)
  /\ (is_string (raw !! "msg") = true -> Fields h' !! "msg" = None)
  /\ (is_string (raw !! "msg") = false -> is_string (raw !! "message") = true ->
      Fields h' !! "message" = None)
  /\ (is_string (raw !! "level") = true -> Fields h' !! "level" = None)
  /\ (is_string (raw !! "level") = false -> Fields h' !! "lvl" = None).
Proof.
  intros Hempty Hd Hok.
  destruct (UnmarshalJSON_decoded h data raw Hd) as [Herr Hfields].
  rewrite Hok in Herr, Hfields. simpl in Herr, Hfields.
  specialize (Hfields (eq_sym Herr)).
  assert (forall k, remaining raw !! k = None -> Fields h' !! k = None) as Hgone.
  { intros k Hk. rewrite Hfields, Hk, Hempty. apply lookup_empty. }
  unfold remaining in Hgone.
  repeat split; intros; apply Hgone.
  - unfold timeKey. rewrite H. simpl.
    destruct (messageKey_cases raw) as [-> | [-> | ->]]; simpl;
      unfold levelKey; destruct (is_string (raw !! "level"));
      rewrite ?lookup_delete_ne by discriminate; apply lookup_delete_eq.
  - unfold timeKey. rewrite H, H0. simpl.
    destruct (messageKey_cases raw) as [-> | [-> | ->]]; simpl;
      unfold levelKey; destruct (is_string (raw !! "level"));
      rewrite ?lookup_delete_ne by discriminate; apply lookup_delete_eq.
  - unfold messageKey. rewrite H. simpl.
    unfold levelKey; destruct (is_string (raw !! "level"));
      rewrite ?lookup_delete_ne by discriminate; apply lookup_delete_eq.
  - unfold messageKey. rewrite H, H0. simpl.
    unfold levelKey; destruct (is_string (raw !! "level"));
      rewrite ?lookup_delete_ne by discriminate; apply lookup_delete_eq.
  - unfold levelKey. rewrite H. apply lookup_delete_eq.
  - unfold levelKey. rewrite H. apply lookup_delete_eq.
Qed.

(** C8.  Whatever the record holds (with or without fields) and whether or
    not rendering panics, a call of [Prettify] leaves the handler as
    [clear] leaves it: the fields the record had are the new diff state,
    and level, time, message and fields are empty.  The steps before it
    ([ensureWriter]) do not touch the diff state or the record. *)
Theorem C8_reset_and_rotate (h : JSONHandler) (skipUnchanged : bool) :
  snd (Prettify h skipUnchanged) = clear (ensureWriter h)
  /\ last (snd (Prettify h skipUnchanged)) = Fields h
  /\ Fields (snd (Prettify h skipUnchanged)) = ∅
  /\ Level (snd (Prettify h skipUnchanged)) = EmptyString
  /\ Time (snd (Prettify h skipUnchanged)) = time_zero
  /\ Message (snd (Prettify h skipUnchanged)) = EmptyString
  /\ last (ensureWriter h) = last h
  /\ Fields (ensureWriter h) = Fields h
  /\ fst (Prettify h skipUnchanged) = prettifyBytes (ensureWriter h) skipUnchanged.
Proof.
  unfold Prettify, ensureWriter. destruct (out h); simpl; repeat split.
Qed.

(** With an empty diff state nothing counts as unchanged. *)
Lemma kvToken_no_last (opts : HandlerOptions) (skipUnchanged : bool)
    (sep k v : string) :
  kvToken opts ∅ skipUnchanged sep k v = kvToken opts ∅ false sep k v.
Proof.
  unfold kvToken. rewrite lookup_empty, andb_false_r. reflexivity.
Qed.

Lemma collectKVs_no_last (opts : HandlerOptions) (skipUnchanged : bool)
    (sep : string) (l : list (string * string)) :
  collectKVs opts ∅ skipUnchanged sep l = collectKVs opts ∅ false sep l.
Proof.
  induction l as [| [k v] l IH]; simpl; [reflexivity|].
  rewrite kvToken_no_last, IH. reflexivity.
Qed.

(** C10.  When the line holds neither marker, [TryHandle] returns false and
    the handler is as it was.  When a marker is there and the parse fails,
    [TryHandle] returns false and clears the handler: level, time and
    message are empty, the fields are a new empty map, and the diff state is
    the fields map the handler held; when that map is empty (a new handler,
    or one just cleared), the line handled next is rendered with every field
    the visibility predicate accepts, skip-unchanged or not. *)
Theorem C10_tryhandle_frame (h : JSONHandler) (d : string) :
  (bytes_Contains d time_marker = false ->
   bytes_Contains d ts_marker = false ->
   TryHandle h d = (false, h))
  /\ (bytes_Contains d time_marker = true \/ bytes_Contains d ts_marker = true ->
      fst (UnmarshalJSON h d) <> None ->
      fst (TryHandle h d) = false
      /\ snd (TryHandle h d) = clear (snd (UnmarshalJSON h d))
      /\ Level (snd (TryHandle h d)) = EmptyString
      /\ Time (snd (TryHandle h d)) = time_zero
      /\ Message (snd (TryHandle h d)) = EmptyString
      /\ Fields (snd (TryHandle h d)) = ∅
      /\ last (snd (TryHandle h d)) = Fields h
      /\ (Fields h = ∅ ->
          forall d2 h2 sep,
            TryHandle (snd (TryHandle h d)) d2 = (true, h2) ->
            joinKVs h2 true sep = joinKVs h2 false sep
            /\ forall opts k v,
                 Opts h2 = Some opts -> Fields h2 !! k = Some v ->
                 shouldShowKey opts k = true ->
                 kvToken opts (last h2) true sep k v <> Skipped)).
Proof.
  split.
  - intros Ht Hts. unfold TryHandle. rewrite Ht, Hts. reflexivity.
  - intros Hprobe Herr.
    assert (TryHandle h d = (false, clear (snd (UnmarshalJSON h d)))) as Hth.
    { unfold TryHandle.
      assert (negb (bytes_Contains d time_marker) && negb (bytes_Contains d ts_marker)
              = false) as ->.
      { destruct Hprobe as [-> | ->]; [reflexivity | apply andb_false_r]. }
      destruct (UnmarshalJSON h d) as [[err|] h1]; [reflexivity|].
      simpl in Herr. contradiction. }
    destruct (UnmarshalJSON_failed h d Herr) as (_ & _ & Hf & _).
    rewrite Hth. cbn [fst snd].
    split; [reflexivity|]. split; [reflexivity|].
    split; [reflexivity|]. split; [reflexivity|].
    split; [reflexivity|]. split; [reflexivity|].
    split; [simpl; exact Hf|].
    intros Hempty d2 h2 sep Hnext.
    assert (last h2 = ∅) as Hlast.
    { unfold TryHandle in Hnext.
      destruct (negb _ && negb _); [discriminate|].
      destruct (UnmarshalJSON_frame (clear (snd (UnmarshalJSON h d))) d2) as (Hl & _).
      destruct (UnmarshalJSON _ d2) as [[err|] h3]; [discriminate|].
      injection Hnext as <-. simpl in Hl. rewrite Hl, Hf. exact Hempty. }
    split.
    + unfold joinKVs. rewrite Hlast. destruct (Opts h2); [|reflexivity].
      rewrite collectKVs_no_last. reflexivity.
    + intros opts k v _ _ Hshow. rewrite Hlast, kvToken_no_last.
      unfold kvToken. rewrite Hshow. simpl.
      destruct (truncateValue opts v); discriminate.
Qed.

End NormalizerSpec.

Lemma digits2_pos_bound (m : positive) : Zpos m < 2 ^ Zpos (digits2_pos m).
Proof.
  induction m as [m IH | m IH |]; simpl digits2_pos.
  - rewrite Pos2Z.inj_succ, Z.pow_succ_r by lia. lia.
  - rewrite Pos2Z.inj_succ, Z.pow_succ_r by lia. lia.
  - reflexivity.
Qed.

(** The mantissa of a binary64 float has at most 53 bits. *)
Lemma valid_mantissa_bound (s : bool) (m : positive) (e : Z) :
  valid_binary (S754_finite s m e) = true -> Zpos m < 2 ^ 53.
Proof.
  simpl. unfold bounded, canonical_mantissa, fexp.
  intros H. apply andb_true_iff in H as [H _]. apply Z.eqb_eq in H.
  assert (Zpos (digits2_pos m) <= 53) as Hd.
  { change prec with 53 in H. lia. }
  eapply Z.lt_le_trans; [apply digits2_pos_bound|].
  apply Z.pow_le_mono_r; lia.
Qed.

(** A float that is not negative and lies below [1e9] has its floor below
    [2^30]. *)
Lemma floor_below_1e9 (v : float) (z : Z) :
  float_sign v = false ->
  (v <? 1e9)%float = true ->
  float_floorZ v = Some z ->
  0 <= z < 2 ^ 30.
Proof.
  unfold float_sign, float_floorZ. intros Hs Hlt Hz.
  rewrite ltb_spec in Hlt.
  pose proof (Prim2SF_valid v) as Hv.
  destruct (Prim2SF v) as [s0 | s0 | | s m e]; simpl in Hz; try discriminate.
  - injection Hz as <-. split; [lia | reflexivity].
  - subst s. injection Hz as <-. simpl cond_Zopp.
    apply valid_mantissa_bound in Hv.
    change (Prim2SF 1e9) with (S754_finite false 8388608000000000 (-23)) in Hlt.
    unfold SFltb, SFcompare in Hlt.
    assert (e <= -23) as He.
    { destruct (e ?= -23) eqn:Hc; try discriminate.
      - apply Z.compare_eq in Hc. lia.
      - rewrite Z.compare_lt_iff in Hc. lia. }
    rewrite Z.shiftl_div_pow2 by lia.
    split; [apply Z.div_pos; lia|].
    apply Z.div_lt_upper_bound; [lia|].
    assert (2 ^ 23 <= 2 ^ (- e)) as Hp by (apply Z.pow_le_mono_r; lia).
    change (2 ^ 53) with (2 ^ 30 * 2 ^ 23) in Hv.
    change (2 ^ 30) with 1073741824 in *.
    change (2 ^ 23) with 8388608 in *.
    nia.
Qed.

(** The integer part of a float that is not negative is its floor. *)
Lemma trunc_is_floor (v : float) :
  float_sign v = false -> float_truncZ v = float_floorZ v.
Proof.
  unfold float_sign, float_truncZ, float_floorZ.
  destruct (Prim2SF v) as [s0 | s0 | | s m e]; try reflexivity.
  intros ->. reflexivity.
Qed.

Lemma pretty_N_char_digit (x : N) : is_digit (pretty_N_char x) = true.
Proof. unfold pretty_N_char. repeat case_match; reflexivity. Qed.

Lemma pretty_N_go_digits (x : N) (s : string) :
  all_digits s = true ->
  all_digits (pretty_N_go x s) = true
  /\ (String.length s <= String.length (pretty_N_go x s))%nat
  /\ ((0 < x)%N -> (String.length s < String.length (pretty_N_go x s))%nat).
Proof.
  revert s. induction (N.lt_wf_0 x) as [x _ IH]. intros s Hs.
  destruct (N.eq_dec x 0%N) as [-> | Hx].
  - rewrite pretty_N_go_0. split; [exact Hs|]. split; lia.
  - assert (0 < x)%N as Hpos by lia.
    rewrite pretty_N_go_step by exact Hpos.
    destruct (IH (x `div` 10)%N (N.div_lt x 10 Hpos eq_refl)
                (String (pretty_N_char (x `mod` 10)) s)) as (Hd & Hlen & _).
    { simpl. rewrite pretty_N_char_digit, Hs. reflexivity. }
    simpl in Hlen. split; [exact Hd|]. split; [lia | intros _; lia].
Qed.

(** The digits of a positive number: one or more, and digits only. *)
Lemma pretty_positive_digits (p : positive) :
  all_digits (pretty p) = true /\ pretty p <> EmptyString.
Proof.
  unfold pretty, pretty_positive, pretty, pretty_N.
  destruct (decide (N.pos p = 0%N)) as [H | _]; [discriminate H|].
  destruct (pretty_N_go_digits (N.pos p) EmptyString eq_refl) as (Hd & _ & Hlen).
  split; [exact Hd|]. intros Heq. rewrite Heq in Hlen. simpl in Hlen.
  specialize (Hlen ltac:(lia)). lia.
Qed.

(** [%d] writes a plain decimal integer. *)
Lemma pretty_Z_plain (n : Z) : plain_integer (pretty n) = true.
Proof.
  destruct n as [|p|p]; [reflexivity| |].
  - change (pretty (Z.pos p)) with (pretty p).
    destruct (pretty_positive_digits p) as [Hd Hne].
    destruct (pretty p) as [|c s] eqn:Hp; [contradiction|].
    unfold plain_integer. simpl in Hd. apply andb_true_iff in Hd as [Hc Hs].
    destruct (Ascii.eqb_spec c "-") as [-> | _]; [discriminate Hc|].
    simpl. rewrite Hc, Hs. reflexivity.
  - change (pretty (Z.neg p)) with (String "-" (pretty p)).
    destruct (pretty_positive_digits p) as [Hd Hne].
    unfold plain_integer. rewrite Ascii.eqb_refl, Hd, andb_true_r.
    destruct (pretty p); [contradiction | reflexivity].
Qed.

Section NumbersSpec.

Context {E : External}.

(** C1 (amended).  For a field whose value is a finite number [v] with floor
    [z]: when the handler's test [v - floor(v) < 0.000001 && v < 1e9] holds,
    the display string is a plain decimal integer (what [%d] writes: a minus
    sign or none, then digits only); it is the decimal string of [z] when
    [v] is not negative, and when [v] is an integer that an [int64] holds.
    When the test fails, the display string is the [%g] rendering of
    [v]. *)
Theorem C1_numeric_display (v : float) (z : Z) :
  float_floorZ v = Some z ->
  (looksLikeInteger v = true ->
   (exists n,
      formatValue (VFloat64 v) = Sprintf_d n
      /\ plain_integer (formatValue (VFloat64 v)) = true)
   /\ (float_sign v = false \/ (float_truncZ v = Some z /\ int64_min <= z) ->
       formatValue (VFloat64 v) = Sprintf_d z))
  /\ (looksLikeInteger v = false -> formatValue (VFloat64 v) = Sprintf_g v).
Proof.
  intros Hz. split.
  - intros Ht. split.
    { exists (float64_to_int64 v). simpl. rewrite Ht.
      split; [reflexivity | apply pretty_Z_plain]. }
    intros Hcase. simpl. rewrite Ht. f_equal.
    assert ((v <? 1e9)%float = true) as Hlt.
    { unfold looksLikeInteger in Ht. apply andb_true_iff in Ht. tauto. }
    unfold float64_to_int64.
    destruct Hcase as [Hs | [Htr Hmin]].
    + rewrite (trunc_is_floor v Hs), Hz.
      pose proof (floor_below_1e9 v z Hs Hlt Hz) as Hb.
      assert ((int64_min <=? z) && (z <=? int64_max) = true) as ->; [|reflexivity].
      unfold int64_min, int64_max. apply andb_true_intro. split; lia.
    + rewrite Htr.
      assert (z <= int64_max) as Hmax.
      { destruct (float_sign v) eqn:Hs.
        - unfold float_sign, float_floorZ in *.
          destruct (Prim2SF v) as [s0 | s0 | | s m e]; simpl in Hz; try discriminate.
          + injection Hz as <-. unfold int64_max. lia.
          + subst s. injection Hz as <-. simpl cond_Zopp.
            assert (Z.shiftl (- Z.pos m) e < 0) by (apply Z.shiftl_neg; lia).
            unfold int64_max. lia.
        - pose proof (floor_below_1e9 v z Hs Hlt Hz). unfold int64_max. lia. }
      assert ((int64_min <=? z) && (z <=? int64_max) = true) as ->; [|reflexivity].
      apply andb_true_intro. split; lia.
  - intros Ht. simpl. rewrite Ht. reflexivity.
Qed.

End NumbersSpec.

Lemma byte_of_bound (c : ascii) : 0 <= byte_of c < 256.
Proof.
  unfold byte_of. pose proof (nat_ascii_bounded c). lia.
Qed.

Lemma byte_of_char_of (b : Z) : 0 <= b < 256 -> byte_of (char_of b) = b.
Proof.
  intros Hb. unfold byte_of, char_of.
  rewrite Z.mod_small by lia.
  rewrite nat_ascii_embedding by lia. lia.
Qed.

Lemma no_lower_substring (n : nat) (s : string) :
  no_lower s = true -> no_lower (String.substring 0 n s) = true.
Proof.
  revert s. induction n as [|n IH]; intros [|c s]; simpl; auto.
  intros H. apply andb_true_iff in H as [Hc Hs].
  rewrite Hc. simpl. auto.
Qed.

Section LevelSpec.

Context {E : External}.

(** On a level of ASCII bytes, [strings.ToUpper] keeps the length and
    leaves no lower-case letter. *)
Lemma strings_ToUpper_ascii (s : string) :
  is_ascii s = true ->
  String.length (strings_ToUpper s) = String.length s
  /\ no_lower (strings_ToUpper s) = true.
Proof.
  unfold strings_ToUpper.
  induction s as [|c s IH]; simpl; [auto|].
  intros H. apply andb_true_iff in H as [Hc Hs].
  destruct (IH Hs) as [IHl IHn]. rewrite Hc.
  pose proof (byte_of_bound c) as Hb. apply Z.ltb_lt in Hc.
  set (r := unicode_ToUpper (byte_of c)).
  assert (0 <= r <= 0x7F /\ negb ((0x61 <=? r) && (r <=? 0x7A)) = true) as [Hr Hup].
  { subst r. unfold unicode_ToUpper.
    assert ((byte_of c <=? 0x7F) = true) as -> by lia.
    destruct ((0x61 <=? byte_of c) && (byte_of c <=? 0x7A)) eqn:Hlow.
    - apply andb_true_iff in Hlow as [H1 H2]. split; [lia|].
      apply negb_true_iff, andb_false_iff. left. lia.
    - split; [lia|]. rewrite Hlow. reflexivity. }
  assert ((r <? 0) = false) as -> by lia.
  unfold utf8_encode.
  assert ((0 <=? r) && (r <=? 0x7F) = true) as ->.
  { apply andb_true_intro. split; lia. }
  simpl.
  change (EmptyString +:+ strings_Map unicode_ToUpper s)
    with (strings_Map unicode_ToUpper s).
  rewrite IHl, IHn, byte_of_char_of by lia.
  rewrite Hup. auto.
Qed.

(** On a level of ASCII bytes the abbreviation succeeds: it has
    [imin(4, len(level))] bytes, at most 4, none of them a lower-case
    letter. *)
Lemma levelAbbrev_ascii (level : string) :
  is_ascii level = true ->
  exists lvl,
    levelAbbrev level = Some lvl
    /\ len lvl = imin 4 (len level)
    /\ len lvl <= 4
    /\ no_lower lvl = true.
Proof.
  intros Ha. destruct (strings_ToUpper_ascii level Ha) as [Hl Hn].
  unfold levelAbbrev, slice_to.
  assert (0 <= imin 4 (len level) <= len (strings_ToUpper level)) as Hb.
  { unfold imin, len. rewrite Hl. destruct (4 <? Z.of_nat (String.length level)) eqn:H4; lia. }
  assert ((0 <=? imin 4 (len level)) && (imin 4 (len level) <=? len (strings_ToUpper level))
          = true) as ->.
  { apply andb_true_intro. split; lia. }
  eexists. split; [reflexivity|].
  assert (len (String.substring 0 (Z.to_nat (imin 4 (len level))) (strings_ToUpper level))
          = imin 4 (len level)) as Hlen.
  { unfold len at 1. rewrite substring_0_length; [lia|]. unfold len in *. lia. }
  rewrite Hlen. split; [reflexivity|]. split.
  - unfold imin. destruct (4 <? len level) eqn:H4; lia.
  - apply no_lower_substring. exact Hn.
Qed.

(** C2, at the level "ſ".  [strings.ToUpper] turns its two bytes into the
    one byte "S", the slice bound [imin(4, len(h.Level))] is 2, and the
    slice expression panics: the abbreviation fails, and so does
    [Prettify] on any handler holding that level. *)
Theorem C2_level_abbreviation_long_s (h : JSONHandler) (skipUnchanged : bool) :
  strings_ToUpper long_s = "S"
  /\ imin 4 (len long_s) = 2
  /\ levelAbbrev long_s = None
  /\ fst (Prettify (set_Level h long_s) skipUnchanged) = None.
Proof.
  split; [reflexivity|]. split; [reflexivity|].
  assert (levelAbbrev long_s = None) as Hl by reflexivity.
  split; [exact Hl|].
  unfold Prettify, prettifyBytes. cbn [fst].
  assert (Level (ensureWriter (set_Level h long_s)) = long_s) as ->.
  { unfold ensureWriter. simpl. destruct (out h); reflexivity. }
  rewrite Hl.
  destruct (Opts (ensureWriter (set_Level h long_s))); [|reflexivity].
  destruct (out (ensureWriter (set_Level h long_s))); [|reflexivity].
  destruct (buf (ensureWriter (set_Level h long_s))); reflexivity.
Qed.

End LevelSpec.

(** * The spec on concrete lines *)

(** C1, as the spec states it, fails.  [-2.9999995] is within [1e-6] of
    [-3] and the spec gives it the display string "-3"; the handler
    converts with [int(v)], which drops the fraction, and shows "-2".
    [2.9999995] is within [1e-6] of [3] and the spec gives it "3"; the
    handler's test looks at the distance to the floor only, and the value
    takes the [%g] branch.  [-5e9] is outside the spec's magnitude bound;
    the handler's bound is on [v], not on [|v|], and the value is shown as
    the integer "-5000000000". *)
Lemma C1_counterexample :
  (spec_integer_display (-2.9999995)%float = Some "-3"
   /\ forall E : External, @formatValue E (VFloat64 (-2.9999995)%float) = "-2")
  /\ (spec_integer_display 2.9999995%float = Some "3"
      /\ forall E : External,
           @looksLikeInteger 2.9999995%float = false
           /\ @formatValue E (VFloat64 2.9999995%float) = Sprintf_g 2.9999995%float)
  /\ (spec_integer_display (-5e9)%float = None
      /\ forall E : External, @formatValue E (VFloat64 (-5e9)%float) = "-5000000000").
Proof.
  split; [|split]; (split; [vm_compute; reflexivity|]); intros E.
  - vm_compute. reflexivity.
  - split; vm_compute; reflexivity.
  - vm_compute. reflexivity.
Qed.

(** C1 at the numbers [3] and [-2.9999995]: the first is shown as "3"; the
    second passes the test too and is shown as a plain decimal integer. *)
Lemma C1_numeric_display_witness :
  float_floorZ 3%float = Some 3
  /\ @formatValue plain_External (VFloat64 3%float) = "3"
  /\ float_floorZ (-2.9999995)%float = Some (-3)
  /\ plain_integer (@formatValue plain_External (VFloat64 (-2.9999995)%float)) = true.
Proof.
  split; [reflexivity|]. split.
  - apply (proj2 (proj1 (@C1_numeric_display plain_External 3%float 3 eq_refl)
                    eq_refl)).
    left. reflexivity.
  - split; [reflexivity|].
    destruct (proj1 (proj1 (@C1_numeric_display plain_External (-2.9999995)%float
                              (-3) eq_refl) eq_refl)) as (n & _ & Hplain).
    exact Hplain.
Defined.

(** C3 at the field [env] of [handler_deploy], which the line before
    held with the same value: its iteration appends nothing. *)
Lemma C3_skip_unchanged_witness :
  @kvToken plain_External (options_limit 15) (last (handler_deploy 15)) true "="
    "env" (quoted "production") = Skipped
  /\ @joinKVs plain_External (handler_deploy 15) true "="
     = @joinKVs plain_External
         (set_Fields (handler_deploy 15) (delete "env" (Fields (handler_deploy 15))))
         true "=".
Proof.
  refine (proj1 (@C3_skip_unchanged plain_External (handler_deploy 15)
                   (options_limit 15) "=" "env" (quoted "production") _ _ _ _) _ _).
  - reflexivity.
  - intros _. simpl. lia.
  - reflexivity.
  - vm_compute. reflexivity.
  - vm_compute. reflexivity.
  - reflexivity.
Defined.

(** C4 at [handler_deploy] with sort-longest on: the three tokens come by
    ascending length. *)
Lemma C4_token_order_witness :
  @joinKVs plain_External (handler_deploy 15) false "="
  = Some ["count=3"; "region=" +:+ quoted "eu"; "env=" +:+ quoted "production"]
  /\ StronglySorted len_lex_le
       ["count=3"; "region=" +:+ quoted "eu"; "env=" +:+ quoted "production"].
Proof.
  destruct (@C4_token_order plain_External (handler_deploy 15) (options_limit 15)
              false "=" eq_refl)
    as (tokens & kv & _ & Hj & _ & _ & Hl).
  - intros _. simpl. lia.
  - split; [vm_compute; reflexivity|].
    assert (kv = ["count=3"; "region=" +:+ quoted "eu"; "env=" +:+ quoted "production"])
      as <-.
    { vm_compute in Hj. injection Hj as <-. reflexivity. }
    apply Hl. reflexivity.
Defined.

(** C6, as the spec states it, fails.  The display string of the JSON
    string made of n and [e_acute] has four characters in five bytes.  At
    the limit 3 the spec gives it its first three characters and "...";
    the handler counts and cuts bytes, and keeps the quote, the n and the
    first byte of the accented letter only.  At the limit -1 every value is
    longer than the limit, and the handler does not render: the slice
    panics. *)
Lemma C6_counterexample :
  utf8_chars (quoted ("n" +:+ e_acute)) = [DQ; "n"; e_acute; DQ]
  /\ len (quoted ("n" +:+ e_acute)) = 5
  /\ spec_truncated_chars 3 (quoted ("n" +:+ e_acute))
     = DQ +:+ "n" +:+ e_acute +:+ "..."
  /\ truncateValue (options_limit 3) (quoted ("n" +:+ e_acute))
     = Some (DQ +:+ "n" +:+ String "195" EmptyString +:+ "...")
  /\ Fields (handler_ne 3) !! "name"
     = Some (@formatValue plain_External (VString ("n" +:+ e_acute)))
  /\ @joinKVs plain_External (handler_ne 3) false "="
     = Some ["name=" +:+ DQ +:+ "n" +:+ String "195" EmptyString +:+ "..."]
  /\ truncateValue (options_limit (-1)) (quoted ("n" +:+ e_acute)) = None
  /\ @joinKVs plain_External (handler_ne (-1)) false "=" = None
  /\ truncateValue (options_limit 3) (quoted ("n" +:+ e_acute))
     <> Some (spec_truncated_chars 3 (quoted ("n" +:+ e_acute))).
Proof.
  split; [vm_compute; reflexivity|]. split; [vm_compute; reflexivity|].
  split; [vm_compute; reflexivity|]. split; [vm_compute; reflexivity|].
  split; [vm_compute; reflexivity|]. split; [vm_compute; reflexivity|].
  split; [vm_compute; reflexivity|]. split; [vm_compute; reflexivity|].
  intros H. vm_compute in H. discriminate H.
Qed.

(** C6 at the limit 5 and the 12-byte value ["production"] (quotes
    included): five bytes are kept and "..." follows. *)
Lemma C6_truncation_witness :
  truncateValue (options_limit 5) (quoted "production")
  = Some (spec_truncated 5 (quoted "production"))
  /\ spec_truncated 5 (quoted "production") = DQ +:+ "prod...".
Proof.
  split; [|reflexivity].
  refine (proj1 (@C6_truncation plain_External (handler_deploy 5) (options_limit 5)
                   false "=" "env" (quoted "production") _ _ _ _ _)).
  - reflexivity.
  - reflexivity.
  - simpl. lia.
  - vm_compute. reflexivity.
  - intros H. vm_compute in H. discriminate H.
Defined.

(** C7 at [line_started] on a new handler: "time", "msg" and "level" are
    consumed and are not fields. *)
Lemma C7_reserved_keys_consumed_witness :
  Fields (snd (@UnmarshalJSON plain_External new_handler line_started)) !! "time" = None
  /\ Fields (snd (@UnmarshalJSON plain_External new_handler line_started)) !! "msg" = None
  /\ Fields (snd (@UnmarshalJSON plain_External new_handler line_started)) !! "level"
     = None.
Proof.
  assert (@UnmarshalJSON plain_External new_handler line_started
          = (None, snd (@UnmarshalJSON plain_External new_handler line_started))) as Hok.
  { vm_compute. reflexivity. }
  destruct (@C7_reserved_keys_consumed plain_External new_handler _ line_started
              raw_started eq_refl eq_refl Hok)
    as (Htime & _ & Hmsg & _ & Hlevel & _).
  split; [apply Htime; reflexivity|].
  split; [apply Hmsg; reflexivity | apply Hlevel; reflexivity].
Defined.

(** C9, as the spec states it, fails at the limit 0: every quoted string
    is longer than the limit and is cut to its first 0 bytes, so it is
    shown as "..." with no opening quote. *)
Lemma C9_counterexample :
  Truncates (options_limit 0) = true
  /\ (forall (E : External) (s : string),
        len (@formatValue E (VString s)) > TruncateLength (options_limit 0)
        /\ truncateValue (options_limit 0) (@formatValue E (VString s)) = Some "...")
  /\ String.prefix DQ "..." = false
  /\ Fields (handler_deploy 0) !! "env"
     = Some (@formatValue plain_External (VString "production"))
  /\ @joinKVs plain_External (handler_deploy 0) false "="
     = Some ["env=..."; "count=..."; "region=..."].
Proof.
  split; [reflexivity|]. split; [|split; [reflexivity|split; vm_compute; reflexivity]].
  intros E s.
  assert (len (@formatValue E (VString s)) > 0) as Hlen.
  { simpl. unfold Sprintf_q. rewrite !len_append. unfold DQ, len. simpl. lia. }
  split; [exact Hlen|].
  unfold truncateValue, slice_to. simpl Truncates. simpl TruncateLength.
  assert ((len (@formatValue E (VString s)) >? 0) = true) as -> by lia.
  assert ((0 <=? 0) && (0 <=? len (@formatValue E (VString s))) = true) as ->.
  { apply andb_true_intro. split; lia. }
  simpl. destruct (Sprintf_q s); reflexivity.
Qed.

(** C9 at the limit 5 and the string [production]: the opening quote and
    four bytes are kept. *)
Lemma C9_quoted_truncation_witness :
  truncateValue (options_limit 5) (@formatValue plain_External (VString "production"))
  = Some (DQ +:+ "prod" +:+ "...").
Proof.
  refine (proj1 (proj2 (@C9_quoted_truncation plain_External (options_limit 5)
                          "production" _ _)) _).
  - reflexivity.
  - simpl. lia.
  - vm_compute. reflexivity.
Defined.

(** ** The handler on whole lines *)

(** A line with a time, a level, a message and two fields is handled and
    rendered with the level tag [INFO], the message, and the tokens
    [count=3] and [env="prod"]. *)
Example line_started_rendered :
  fst (@TryHandle plain_External new_handler line_started) = true
  /\ fst (@Prettify plain_External
            (snd (@TryHandle plain_External new_handler line_started)) false)
     = Some ("63839664000 |INFO| started" +:+ TAB +:+ " count=3" +:+ TAB
             +:+ " env=" +:+ quoted "prod").
Proof. split; vm_compute; reflexivity. Qed.

(** A line whose string timestamp matches no layout is not handled, and
    nothing of it is kept. *)
Example line_yesterday_not_handled :
  @TryHandle plain_External new_handler line_yesterday = (false, clear new_handler).
Proof. vm_compute. reflexivity. Qed.

(** A line that passes the probe on a nested key and has no timestamp key
    of its own is handled; its time is the zero value. *)
Example line_nested_handled :
  fst (@TryHandle plain_External new_handler line_nested) = true
  /\ Time (snd (@TryHandle plain_External new_handler line_nested)) = time_zero.
Proof. split; vm_compute; reflexivity. Qed.

(** A line that passes the probe and is cut short is not handled. *)
Example line_cut_not_handled :
  @TryHandle plain_External new_handler line_cut = (false, clear new_handler).
Proof. vm_compute. reflexivity. Qed.

(** The levels [ok] and [warning] are abbreviated to [OK] and [WARN]. *)
Example levelAbbrev_ok_warning :
  @levelAbbrev plain_External "ok" = Some "OK"
  /\ @levelAbbrev plain_External "warning" = Some "WARN".
Proof. split; vm_compute; reflexivity. Qed.

(** * Further properties of the handler *)

(** ** The probe *)

Lemma append_String (c : ascii) (a b : string) :
  String c a +:+ b = String c (a +:+ b).
Proof. reflexivity. Qed.

Lemma append_EmptyString (b : string) : EmptyString +:+ b = b.
Proof. reflexivity. Qed.

Lemma prefix_append (sub d : string) :
  String.prefix sub d = true <-> exists b, d = sub +:+ b.
Proof.
  revert d. induction sub as [|c sub IH]; intros d; simpl.
  - split; [intros _; exists d; reflexivity | intros _; destruct d; reflexivity].
  - destruct d as [|c' d]; [split; [discriminate | intros [b Hb]; discriminate]|].
    simpl. destruct (ascii_dec c c') as [->|Hne].
    + rewrite IH. split; intros [b Hb]; exists b; rewrite append_String in *; congruence.
    + split; [discriminate | intros [b Hb]; rewrite append_String in Hb; congruence].
Qed.

Lemma bytes_Contains_unfold (d sub : string) :
  bytes_Contains d sub
  = if String.prefix sub d then true
    else match d with
         | EmptyString => false
         | String _ d' => bytes_Contains d' sub
         end.
Proof. destruct d; reflexivity. Qed.

(** [bytes.Contains] holds exactly of the lines in which the sought bytes
    occur. *)
Lemma bytes_Contains_occurs (d sub : string) :
  bytes_Contains d sub = true <-> occurs sub d.
Proof.
  unfold occurs. split.
  - induction d as [|c d IH]; rewrite bytes_Contains_unfold;
      destruct (String.prefix sub _) eqn:Hp; intros H; try discriminate.
    + apply prefix_append in Hp as [b Hb]. exists EmptyString, b. exact Hb.
    + apply prefix_append in Hp as [b Hb]. exists EmptyString, b. exact Hb.
    + destruct (IH H) as (a & b & ->). exists (String c a), b. reflexivity.
  - intros (a & b & ->). induction a as [|c a IH]; rewrite bytes_Contains_unfold.
    + assert (String.prefix sub (EmptyString +:+ sub +:+ b) = true) as ->;
        [|reflexivity].
      apply prefix_append. exists b. reflexivity.
    + rewrite append_String, IH. destruct (String.prefix sub _); reflexivity.
Qed.

Section NormalizerFurther.

Context {E : External}.

(** Whether the timestamp stage fails depends on the line alone. *)
Lemma extractTime_verdict (h h' : JSONHandler) (raw : gmap string value) :
  fst (fst (extractTime h raw)) = fst (fst (extractTime h' raw)).
Proof.
  destruct (timestampString raw) as [s|] eqn:Hs.
  - rewrite !(extractTime_string _ raw s Hs). reflexivity.
  - destruct (extractTime_no_string h raw Hs) as (-> & _).
    destruct (extractTime_no_string h' raw Hs) as (-> & _). reflexivity.
Qed.

Lemma UnmarshalJSON_verdict (h h' : JSONHandler) (d : string) :
  fst (UnmarshalJSON h d) = None <-> fst (UnmarshalJSON h' d) = None.
Proof.
  destruct (json_Unmarshal d) as [raw|] eqn:Hd.
  - destruct (UnmarshalJSON_decoded h d raw Hd) as [-> _].
    destruct (UnmarshalJSON_decoded h' d raw Hd) as [-> _].
    rewrite (extractTime_verdict h h'). reflexivity.
  - unfold UnmarshalJSON. rewrite Hd. simpl. split; discriminate.
Qed.

Lemma TryHandle_true (h : JSONHandler) (d : string) :
  fst (TryHandle h d) = true
  <-> (bytes_Contains d time_marker = true \/ bytes_Contains d ts_marker = true)
      /\ fst (UnmarshalJSON h d) = None.
Proof.
  unfold TryHandle.
  destruct (bytes_Contains d time_marker), (bytes_Contains d ts_marker); simpl;
    destruct (UnmarshalJSON h d) as [[err|] h1]; simpl;
    intuition (discriminate || auto).
Qed.

Lemma TryHandle_true_state (h : JSONHandler) (d : string) :
  fst (TryHandle h d) = true -> snd (TryHandle h d) = snd (UnmarshalJSON h d).
Proof.
  unfold TryHandle.
  destruct (negb _ && negb _); [discriminate|].
  destruct (UnmarshalJSON h d) as [[err|] h1]; [discriminate | reflexivity].
Qed.

Lemma TryHandle_verdict (h h' : JSONHandler) (d : string) :
  fst (TryHandle h d) = fst (TryHandle h' d).
Proof.
  pose proof (TryHandle_true h d) as H1.
  pose proof (TryHandle_true h' d) as H2.
  rewrite (UnmarshalJSON_verdict h h' d) in H1.
  destruct (fst (TryHandle h d)), (fst (TryHandle h' d)); try reflexivity.
  - symmetry. apply H2, H1. reflexivity.
  - apply H1, H2. reflexivity.
Qed.

(** X1.  [TryHandle] returns true exactly for the lines in which the bytes
    ["time":] or ["ts":] occur and which [UnmarshalJSON] accepts, and the
    handler then is as [UnmarshalJSON] leaves it. *)
Theorem X1_TryHandle_handled (h : JSONHandler) (d : string) :
  (fst (TryHandle h d) = true
   <-> (occurs time_marker d \/ occurs ts_marker d)
       /\ fst (UnmarshalJSON h d) = None)
  /\ (fst (TryHandle h d) = true -> snd (TryHandle h d) = snd (UnmarshalJSON h d)).
Proof.
  split; [|apply TryHandle_true_state].
  rewrite TryHandle_true, !bytes_Contains_occurs. reflexivity.
Qed.

(** X2.  Whether a line is handled depends on the line alone, not on the
    handler it is given to: [TryHandle] returns the same result, and
    [UnmarshalJSON] fails or succeeds alike, on any two handlers. *)
Theorem X2_verdict_of_the_line (h h' : JSONHandler) (d : string) :
  fst (TryHandle h d) = fst (TryHandle h' d)
  /\ (fst (UnmarshalJSON h d) = None <-> fst (UnmarshalJSON h' d) = None).
Proof.
  split; [apply TryHandle_verdict | apply UnmarshalJSON_verdict].
Qed.

(** ** The record of a handled line *)

Lemma reserved_false (k : string) :
  reserved k = false ->
  k <> "time" /\ k <> "ts" /\ k <> "msg" /\ k <> "message" /\ k <> "level"
  /\ k <> "lvl".
Proof.
  unfold reserved. rewrite !orb_false_iff, !String.eqb_neq. tauto.
Qed.

Lemma remaining_not_reserved (raw : gmap string value) (k : string) :
  reserved k = false -> remaining raw !! k = raw !! k.
Proof.
  intros Hk. apply reserved_false in Hk as (H1 & H2 & H3 & H4 & H5 & H6).
  unfold remaining, levelKey.
  destruct (timeKey_cases raw) as [-> | [-> | ->]],
    (messageKey_cases raw) as [-> | [-> | ->]],
    (is_string (raw !! "level")); simpl;
    rewrite ?lookup_delete_ne by congruence; reflexivity.
Qed.

(** The level, the message and the time a successful call leaves. *)
Lemma UnmarshalJSON_record (h : JSONHandler) (data : string)
    (raw : gmap string value) :
  json_Unmarshal data = Some raw ->
  fst (UnmarshalJSON h data) = None ->
  Level (snd (UnmarshalJSON h data)) = levelOf raw
  /\ Message (snd (UnmarshalJSON h data)) = messageOf raw
  /\ Time (snd (UnmarshalJSON h data)) = Time (snd (fst (extractTime h raw))).
Proof.
  intros Hd. unfold UnmarshalJSON. rewrite Hd.
  destruct (extractTime h raw) as [[err h1] raw1] eqn:Ht.
  destruct err as [err|]; [simpl; discriminate|]. intros _.
  rewrite extractMessage_spec, extractLevel_spec. cbn [fst snd].
  assert (raw1 = delete_key (timeKey raw) raw) as ->.
  { destruct (timestampString raw) as [s|] eqn:Hs.
    - rewrite (extractTime_string h raw s Hs) in Ht. congruence.
    - destruct (extractTime_no_string h raw Hs) as (_ & H & _).
      rewrite Ht in H. exact H. }
  unfold storeFields, levelOf, messageOf, stringAt.
  cbn [Level Message Time set_Fields set_Level set_Message].
  rewrite messageKey_after_time.
  split; [|split; [|reflexivity]].
  - destruct (timeKey_cases raw) as [-> | [-> | ->]],
      (messageKey_cases raw) as [-> | [-> | ->]]; simpl;
      rewrite ?lookup_delete_ne by discriminate;
      destruct (raw !! "level") as [[]|]; simpl; try reflexivity;
      destruct (raw !! "lvl") as [[]|]; reflexivity.
  - destruct (timeKey_cases raw) as [-> | [-> | ->]]; simpl;
      rewrite ?lookup_delete_ne by discriminate;
      destruct (raw !! "msg") as [[]|]; simpl; try reflexivity;
      destruct (raw !! "message") as [[]|]; reflexivity.
Qed.

(** X3.  After a successful [UnmarshalJSON], a key other than the six
    the normalizer looks up is a field exactly as the line has it: the line's
    value under the key is stored as its display string, and a key the line
    does not have keeps the field the handler held (none, on a handler that
    was just cleared).  No such key of the line is lost. *)
Theorem X3_other_keys_stored (h : JSONHandler) (data : string)
    (raw : gmap string value) (k : string) :
  json_Unmarshal data = Some raw ->
  fst (UnmarshalJSON h data) = None ->
  reserved k = false ->
  Fields (snd (UnmarshalJSON h data)) !! k = storedField h raw k.
Proof.
  intros Hd Hok Hk.
  destruct (UnmarshalJSON_decoded h data raw Hd) as [Herr Hfields].
  rewrite Herr in Hok. rewrite (Hfields Hok k), remaining_not_reserved by exact Hk.
  reflexivity.
Qed.

(** X4.  A reserved key that is not consumed stays a field.  After a
    successful [UnmarshalJSON]: "time" is stored when it holds no string;
    "ts" is stored when "time" holds a string, or when "ts" holds neither a
    string nor a number; "msg" is stored when it holds no string; "message"
    is stored when "msg" holds a string, or when "message" holds no string;
    "level" is stored when it holds no string; "lvl" is stored when "level"
    holds a string. *)
Theorem X4_unconsumed_reserved_keys (h : JSONHandler) (data : string)
    (raw : gmap string value) :
  json_Unmarshal data = Some raw ->
  fst (UnmarshalJSON h data) = None ->
  (is_string (raw !! "time") = false ->
   Fields (snd (UnmarshalJSON h data)) !! "time" = storedField h raw "time")
  /\ (is_string (raw !! "time") = true
      \/ is_string (raw !! "ts") || is_int64 (raw !! "ts") || is_float64 (raw !! "ts")
         = false ->
      Fields (snd (UnmarshalJSON h data)) !! "ts" = storedField h raw "ts")
  /\ (is_string (raw !! "msg") = false ->
      Fields (snd (UnmarshalJSON h data)) !! "msg" = storedField h raw "msg")
  /\ (is_string (raw !! "msg") = true \/ is_string (raw !! "message") = false ->
      Fields (snd (UnmarshalJSON h data)) !! "message" = storedField h raw "message")
  /\ (is_string (raw !! "level") = false ->
      Fields (snd (UnmarshalJSON h data)) !! "level" = storedField h raw "level")
  /\ (is_string (raw !! "level") = true ->
      Fields (snd (UnmarshalJSON h data)) !! "lvl" = storedField h raw "lvl").
Proof.
  intros Hd Hok.
  destruct (UnmarshalJSON_decoded h data raw Hd) as [Herr Hfields].
  rewrite Herr in Hok. specialize (Hfields Hok).
  assert (forall k, remaining raw !! k = raw !! k ->
                    Fields (snd (UnmarshalJSON h data)) !! k = storedField h raw k)
    as Hkept.
  { intros k Hk. rewrite Hfields, Hk. reflexivity. }
  unfold remaining, timeKey, messageKey, levelKey in Hkept.
  repeat split; intros H; apply Hkept;
    repeat match goal with
           | H : _ \/ _ |- _ => destruct H as [H | H]
           | H : _ || _ = false |- _ => apply orb_false_iff in H as [? ?]
           end;
    repeat match goal with
           | H : ?b = _ |- context [?b] => rewrite H
           end; cbn [orb];
    repeat match goal with
           | |- context [if ?b then _ else _] => destruct b
           end; simpl;
    rewrite ?lookup_delete_ne by discriminate; reflexivity.
Qed.

(** X5.  After a successful [UnmarshalJSON] the level is the string under
    "level", else the string under "lvl", else "????", whatever level the
    handler held before. *)
Theorem X5_level_of_the_line (h : JSONHandler) (data : string)
    (raw : gmap string value) :
  json_Unmarshal data = Some raw ->
  fst (UnmarshalJSON h data) = None ->
  Level (snd (UnmarshalJSON h data)) = levelOf raw.
Proof.
  intros Hd Hok. apply (UnmarshalJSON_record h data raw Hd Hok).
Qed.

(** X6.  After a successful [UnmarshalJSON] the message is the string under
    "msg", else the string under "message", else the empty string: a line
    without a message does not keep the message the handler held before. *)
Theorem X6_message_of_the_line (h : JSONHandler) (data : string)
    (raw : gmap string value) :
  json_Unmarshal data = Some raw ->
  fst (UnmarshalJSON h data) = None ->
  Message (snd (UnmarshalJSON h data)) = messageOf raw.
Proof.
  intros Hd Hok. apply (UnmarshalJSON_record h data raw Hd Hok).
Qed.


(** X7.  The time a successful [UnmarshalJSON] leaves, in the order the
    line is searched: the time parsed from the string timestamp (the string
    under "time", else the string under "ts"), which then matched a layout;
    without one, [time.Unix(i, 0)] for an [int64] under "ts", and
    [time.Unix(int64(f), int64((f - float64(int64(f))) * 1e9))] for a
    [float64] under "ts"; and otherwise the time the handler held before. *)
Theorem X7_time_of_the_line (h : JSONHandler) (data : string)
    (raw : gmap string value) :
  json_Unmarshal data = Some raw ->
  fst (UnmarshalJSON h data) = None ->
  (forall s, timestampString raw = Some s ->
     snd (tryParseTime s) = true
     /\ Time (snd (UnmarshalJSON h data)) = fst (tryParseTime s))
  /\ (timestampString raw = None ->
      (forall i, raw !! "ts" = Some (VInt64 i) ->
         Time (snd (UnmarshalJSON h data)) = time_Unix i 0)
      /\ (forall f, raw !! "ts" = Some (VFloat64 f) ->
           Time (snd (UnmarshalJSON h data))
           = time_Unix (float64_to_int64 f)
               (float64_to_int64
                  ((f - float64_of_Z (float64_to_int64 f)) * 1000000000)%float))
      /\ (is_int64 (raw !! "ts") = false -> is_float64 (raw !! "ts") = false ->
          Time (snd (UnmarshalJSON h data)) = Time h)).
Proof.
  intros Hd Hok.
  destruct (UnmarshalJSON_record h data raw Hd Hok) as (_ & _ & ->).
  destruct (UnmarshalJSON_decoded h data raw Hd) as [Herr _].
  rewrite Herr in Hok. split.
  - intros s Hs. rewrite (extractTime_string h raw s Hs) in Hok |- *.
    cbn [fst snd Time set_Time] in *.
    destruct (snd (tryParseTime s)); [split; reflexivity | discriminate].
  - intros Hs. unfold timestampString in Hs. unfold extractTime.
    destruct (raw !! "time") as [[]|] eqn:Htime; try discriminate;
      destruct (raw !! "ts") as [[]|] eqn:Hts; try discriminate; simpl;
      rewrite ?Hts; simpl;
      (split; [intros ? Heq | split; [intros ? Heq | intros H1 H2]]);
      try discriminate; try (injection Heq as <-); reflexivity.
Qed.

End NormalizerFurther.

(** ** The tokens of a record *)

Section RendererFurther.

Context {E : External}.

Lemma shown_spec (opts : HandlerOptions) (lastFields : gmap string string)
    (skipUnchanged : bool) (k v : string) :
  shown opts lastFields skipUnchanged k v = true
  <-> shouldShowKey opts k = true
      /\ (skipUnchanged = true -> lastFields !! k = Some v ->
          shouldShowUnchanged opts k = true).
Proof.
  unfold shown. destruct (shouldShowKey opts k); simpl; [|intuition discriminate].
  destruct skipUnchanged; simpl; [|intuition discriminate].
  destruct (lastFields !! k) as [lastV|]; simpl; [|intuition discriminate].
  destruct (String.eqb_spec lastV v) as [->|Hne]; simpl.
  - destruct (shouldShowUnchanged opts k); simpl; intuition discriminate.
  - split; [|reflexivity]. intros _. split; [reflexivity|]. intros _ [= ?]. contradiction.
Qed.

(** An iteration is skipped exactly for a field that is not shown;
    otherwise it appends the token of the field, or panics in the slice. *)
Lemma kvToken_cases (opts : HandlerOptions) (lastFields : gmap string string)
    (skipUnchanged : bool) (sep k v : string) :
  kvToken opts lastFields skipUnchanged sep k v
  = if shown opts lastFields skipUnchanged k v then
      match truncateValue opts v with
      | Some vstr => Token (tokenOf opts sep k vstr)
      | None => Panicked
      end
    else Skipped.
Proof.
  unfold kvToken, shown, tokenOf.
  destruct (shouldShowKey opts k); simpl; [|reflexivity].
  destruct (skipUnchanged && _); reflexivity.
Qed.

(** The slice of [truncateValue] panics exactly when truncation is on and
    the limit is negative: every length is above such a limit. *)
Lemma truncateValue_None (opts : HandlerOptions) (v : string) :
  truncateValue opts v = None
  <-> Truncates opts = true /\ TruncateLength opts < 0.
Proof.
  unfold truncateValue, slice_to.
  assert (0 <= len v) as Hlen by (unfold len; lia).
  destruct (Truncates opts); simpl; [|intuition discriminate].
  destruct (len v >? TruncateLength opts) eqn:Hgt; [|split; [discriminate | lia]].
  destruct (0 <=? TruncateLength opts) eqn:H0; simpl.
  - assert ((TruncateLength opts <=? len v) = true) as -> by lia.
    split; [discriminate | lia].
  - split; [intros _; split; [reflexivity | lia] | reflexivity].
Qed.

Lemma collectKVs_None (opts : HandlerOptions) (lastFields : gmap string string)
    (skipUnchanged : bool) (sep : string) (l : list (string * string)) :
  collectKVs opts lastFields skipUnchanged sep l = None
  <-> exists k v, (k, v) ∈ l
                  /\ kvToken opts lastFields skipUnchanged sep k v = Panicked.
Proof.
  induction l as [| [k v] l IH]; simpl.
  - split; [discriminate | intros (k & v & Hin & _); inversion Hin].
  - destruct (kvToken opts lastFields skipUnchanged sep k v) eqn:Hk.
    + rewrite IH. split; intros (k' & v' & Hin & Hp).
      * exists k', v'. split; [right; exact Hin | exact Hp].
      * apply elem_of_cons in Hin as [[= -> ->] | Hin]; [congruence | eauto].
    + destruct (collectKVs opts lastFields skipUnchanged sep l) as [kvs|].
      * split; [discriminate|]. intros (k' & v' & Hin & Hp).
        apply elem_of_cons in Hin as [[= -> ->] | Hin]; [congruence|].
        assert (Some kvs = None) as Hn by (apply IH; eauto).
        discriminate Hn.
      * split; [|reflexivity]. intros _.
        destruct (proj1 IH eq_refl) as (k' & v' & Hin & Hp).
        exists k', v'. split; [right; exact Hin | exact Hp].
    + split; [|reflexivity]. intros _. exists k, v. split; [left | exact Hk].
Qed.

Lemma collectKVs_length (opts : HandlerOptions) (lastFields : gmap string string)
    (skipUnchanged : bool) (sep : string) (l : list (string * string))
    (kv : list string) :
  collectKVs opts lastFields skipUnchanged sep l = Some kv ->
  length kv
  = length (List.filter (fun f => shown opts lastFields skipUnchanged (fst f) (snd f)) l).
Proof.
  revert kv. induction l as [| [k v] l IH]; simpl; intros kv.
  - intros [= <-]. reflexivity.
  - rewrite kvToken_cases.
    destruct (shown opts lastFields skipUnchanged k v); [|apply IH].
    destruct (truncateValue opts v); [|discriminate].
    destruct (collectKVs opts lastFields skipUnchanged sep l) as [kvs|]; [|discriminate].
    intros [= <-]. simpl. rewrite (IH kvs eq_refl). reflexivity.
Qed.

(** X8.  The slice [joinKVs] returns holds one token for every field that
    is shown and none for any other: a field whose key the visibility
    predicate rejects, or whose value is unchanged under skip-unchanged
    without the override, gives no token; every other field gives the token
    of its key and its (possibly cut) value. *)
Theorem X8_tokens_of_shown_fields (h : JSONHandler) (opts : HandlerOptions)
    (skipUnchanged : bool) (sep : string) (kv : list string) :
  Opts h = Some opts ->
  joinKVs h skipUnchanged sep = Some kv ->
  (forall t,
     t ∈ kv
     <-> exists k v vstr,
           Fields h !! k = Some v
           /\ shouldShowKey opts k = true
           /\ (skipUnchanged = true -> last h !! k = Some v ->
               shouldShowUnchanged opts k = true)
           /\ truncateValue opts v = Some vstr
           /\ t = tokenOf opts sep k vstr)
  /\ length kv
     = length (List.filter
                 (fun f => shown opts (last h) skipUnchanged (fst f) (snd f))
                 (map_to_list (Fields h)))
  /\ (length kv <= size (Fields h))%nat.
Proof.
  intros Ho Hj.
  assert (exists tokens,
            collectKVs opts (last h) skipUnchanged sep (map_to_list (Fields h))
            = Some tokens /\ kv = sortKVs opts tokens) as (tokens & Hc & ->).
  { unfold joinKVs in Hj. rewrite Ho in Hj.
    destruct (collectKVs _ _ _ _ _) as [tokens|]; [|discriminate].
    injection Hj as <-. eauto. }
  assert (length (sortKVs opts tokens) = length tokens) as Hlen.
  { apply Permutation_length, sortKVs_perm. }
  split; [|split].
  - intros t. rewrite (joinKVs_elem_of h opts skipUnchanged sep _ t Ho Hj). split.
    + intros (k & v & Hk & Ht). rewrite kvToken_cases in Ht.
      destruct (shown opts (last h) skipUnchanged k v) eqn:Hs; [|discriminate].
      destruct (truncateValue opts v) as [vstr|] eqn:Hv; [|discriminate].
      injection Ht as <-. apply shown_spec in Hs as [Hs1 Hs2].
      exists k, v, vstr. auto.
    + intros (k & v & vstr & Hk & Hs1 & Hs2 & Hv & ->).
      exists k, v. split; [exact Hk|]. rewrite kvToken_cases, Hv.
      assert (shown opts (last h) skipUnchanged k v = true) as ->; [|reflexivity].
      apply shown_spec. auto.
  - rewrite Hlen. apply collectKVs_length with (sep := sep). exact Hc.
  - rewrite Hlen, (collectKVs_length _ _ _ _ _ _ Hc).
    rewrite <- length_map_to_list. apply List.filter_length_le.
Qed.


(** When [joinKVs] panics. *)
Lemma joinKVs_None (h : JSONHandler) (opts : HandlerOptions)
    (skipUnchanged : bool) (sep : string) :
  Opts h = Some opts ->
  (joinKVs h skipUnchanged sep = None
   <-> Truncates opts = true
       /\ TruncateLength opts < 0
       /\ exists k v,
            Fields h !! k = Some v
            /\ shown opts (last h) skipUnchanged k v = true).
Proof.
  intros Ho.
  assert (joinKVs h skipUnchanged sep = None
          <-> collectKVs opts (last h) skipUnchanged sep (map_to_list (Fields h)) = None)
    as ->.
  { unfold joinKVs. rewrite Ho.
    destruct (collectKVs _ _ _ _ _); split; (discriminate || reflexivity). }
  rewrite collectKVs_None. split.
  - intros (k & v & Hin & Hp). rewrite kvToken_cases in Hp.
    destruct (shown opts (last h) skipUnchanged k v) eqn:Hs; [|discriminate].
    destruct (truncateValue opts v) eqn:Hv; [discriminate|].
    apply truncateValue_None in Hv as [Ht Hn].
    split; [exact Ht|]. split; [exact Hn|].
    exists k, v. split; [apply elem_of_map_to_list; exact Hin | exact Hs].
  - intros (Ht & Hn & k & v & Hk & Hs).
    exists k, v. split; [apply elem_of_map_to_list; exact Hk|].
    rewrite kvToken_cases, Hs.
    assert (truncateValue opts v = None) as -> by (apply truncateValue_None; auto).
    reflexivity.
Qed.

(** X9.  With options set, [joinKVs] panics exactly when truncation is on,
    the limit is negative, and at least one field is shown: the slice
    [v[:TruncateLength]] of its value is out of range.  A record none of
    whose fields is shown is rendered also with a negative limit. *)
Theorem X9_joinKVs_panics (h : JSONHandler) (opts : HandlerOptions)
    (skipUnchanged : bool) (sep : string) :
  Opts h = Some opts ->
  (joinKVs h skipUnchanged sep = None
   <-> Truncates opts = true
       /\ TruncateLength opts < 0
       /\ exists k v,
            Fields h !! k = Some v
            /\ shown opts (last h) skipUnchanged k v = true).
Proof. apply joinKVs_None. Qed.

(** X10.  [Prettify] returns its bytes, without a panic, whenever the level
    is made of ASCII bytes and the truncation limit is not negative (or
    truncation is off), on a handler that is new or has its buffer. *)
Theorem X10_Prettify_returns (h : JSONHandler) (opts : HandlerOptions)
    (skipUnchanged : bool) :
  Opts (ensureWriter h) = Some opts ->
  (out h <> None -> buf h <> None) ->
  (Truncates opts = true -> 0 <= TruncateLength opts) ->
  is_ascii (Level h) = true ->
  exists bytes lvl kvs,
    fst (Prettify h skipUnchanged) = Some bytes
    /\ levelAbbrev (Level h) = Some lvl
    /\ joinKVs (ensureWriter h) skipUnchanged "=" = Some kvs.
Proof.
  intros Ho Hbuf Hn Ha.
  destruct (levelAbbrev_ascii (Level h) Ha) as (lvl & Hlvl & _).
  destruct (joinKVs_total (ensureWriter h) opts skipUnchanged "=" Ho Hn)
    as (kv & _ & Hj).
  assert (Level (ensureWriter h) = Level h) as Hl.
  { unfold ensureWriter. destruct (out h); reflexivity. }
  assert (exists w b, out (ensureWriter h) = Some w /\ buf (ensureWriter h) = Some b)
    as (w & b & Hw & Hb).
  { unfold ensureWriter. destruct (out h) as [w|] eqn:Hout; simpl.
    - destruct (buf h) as [b|] eqn:Hbf; [eauto|].
      exfalso. apply Hbuf; [discriminate | reflexivity].
    - eauto. }
  unfold Prettify, prettifyBytes. cbn [fst].
  rewrite Ho, Hw, Hb, Hl, Hlvl, Hj.
  do 3 eexists. split; [reflexivity|]. split; reflexivity.
Qed.

(** X11.  The length of a value as shown, with truncation on and a limit
    that is not negative: a value longer than the limit is shown in exactly
    limit + 3 bytes, any other in its own length; so no shown value is
    longer than limit + 3 bytes, and a value one or two bytes over the limit
    is shown longer than it is. *)
Theorem X11_truncated_length (opts : HandlerOptions) (v vstr : string) :
  Truncates opts = true ->
  0 <= TruncateLength opts ->
  truncateValue opts v = Some vstr ->
  len vstr = (if len v >? TruncateLength opts then TruncateLength opts + 3 else len v)
  /\ len vstr <= TruncateLength opts + 3
  /\ (TruncateLength opts < len v < TruncateLength opts + 3 -> len v < len vstr).
Proof.
  intros Ht Hn Hv. rewrite (truncateValue_spec opts v Ht Hn) in Hv.
  injection Hv as <-. unfold spec_truncated.
  destruct (len v >? TruncateLength opts) eqn:Hgt.
  - assert (len (String.substring 0 (Z.to_nat (TruncateLength opts)) v +:+ "...")
            = TruncateLength opts + 3) as ->.
    { rewrite len_append. unfold len at 1. rewrite substring_0_length.
      - unfold len. simpl. lia.
      - unfold len in Hgt. lia. }
    lia.
  - lia.
Qed.

(** X12.  What the calls leave alone.  [TryHandle] never changes the
    options or the writer, and a call that returns true changes neither the
    diff state nor the buffer: it writes the level, the time, the message
    and the fields only.  [Prettify] keeps the options a handler holds, and
    a handler with neither options nor a writer is given [DefaultOptions]
    by its first [Prettify]. *)
Theorem X12_what_the_calls_leave_alone (h : JSONHandler) (d : string)
    (skipUnchanged : bool) :
  Opts (snd (TryHandle h d)) = Opts h
  /\ out (snd (TryHandle h d)) = out h
  /\ (fst (TryHandle h d) = true ->
      last (snd (TryHandle h d)) = last h /\ buf (snd (TryHandle h d)) = buf h)
  /\ (forall opts, Opts h = Some opts ->
        Opts (snd (Prettify h skipUnchanged)) = Some opts)
  /\ (Opts h = None -> out h = None ->
      Opts (snd (Prettify h skipUnchanged)) = Some DefaultOptions).
Proof.
  destruct (UnmarshalJSON_frame h d) as (Hl & Ho & Hw & Hb).
  split; [|split; [|split; [|split]]].
  - unfold TryHandle. destruct (negb _ && negb _); [reflexivity|].
    destruct (UnmarshalJSON h d) as [[err|] h1]; simpl in *; exact Ho.
  - unfold TryHandle. destruct (negb _ && negb _); [reflexivity|].
    destruct (UnmarshalJSON h d) as [[err|] h1]; simpl in *; exact Hw.
  - unfold TryHandle. destruct (negb _ && negb _); [discriminate|].
    destruct (UnmarshalJSON h d) as [[err|] h1]; simpl in *; [discriminate|].
    intros _. split; assumption.
  - intros opts Hopts. unfold Prettify, ensureWriter.
    destruct (out h); simpl; rewrite Hopts; reflexivity.
  - intros Hopts Hout. unfold Prettify, ensureWriter. rewrite Hout. simpl.
    rewrite Hopts. reflexivity.
Qed.

(** When the level abbreviation panics: upper-casing left fewer bytes than
    the slice takes. *)
Lemma levelAbbrev_None (level : string) :
  levelAbbrev level = None
  <-> len (strings_ToUpper level) < imin 4 (len level).
Proof.
  unfold levelAbbrev, slice_to.
  assert (0 <= imin 4 (len level)) as H0.
  { unfold imin, len. destruct (4 <? _); lia. }
  assert ((0 <=? imin 4 (len level)) = true) as -> by lia. simpl.
  destruct (imin 4 (len level) <=? len (strings_ToUpper level)) eqn:H.
  - split; [discriminate | lia].
  - split; [lia | reflexivity].
Qed.

(** X18.  On a handler that has its options and is new or has its buffer,
    [Prettify] panics in exactly two cases: upper-casing the level left
    fewer bytes than [imin(4, len(h.Level))], the bound of the slice; or
    truncation is on with a negative length and at least one field is
    shown. *)
Theorem X18_Prettify_panics (h : JSONHandler) (opts : HandlerOptions)
    (skipUnchanged : bool) :
  Opts (ensureWriter h) = Some opts ->
  (out h <> None -> buf h <> None) ->
  (fst (Prettify h skipUnchanged) = None
   <-> len (strings_ToUpper (Level h)) < imin 4 (len (Level h))
       \/ (Truncates opts = true
           /\ TruncateLength opts < 0
           /\ exists k v,
                Fields h !! k = Some v
                /\ shown opts (last h) skipUnchanged k v = true)).
Proof.
  intros Ho Hbuf.
  assert (Level (ensureWriter h) = Level h /\ Fields (ensureWriter h) = Fields h
          /\ last (ensureWriter h) = last h) as (Hl & Hf & Hla).
  { unfold ensureWriter. destruct (out h); auto. }
  assert (exists w b, out (ensureWriter h) = Some w /\ buf (ensureWriter h) = Some b)
    as (w & b & Hw & Hb).
  { unfold ensureWriter. destruct (out h) as [w|] eqn:Hout; simpl.
    - destruct (buf h) as [b|] eqn:Hbf; [eauto|].
      exfalso. apply Hbuf; [discriminate | reflexivity].
    - eauto. }
  rewrite <- levelAbbrev_None, <- Hf, <- Hla.
  rewrite <- (joinKVs_None (ensureWriter h) opts skipUnchanged "=" Ho).
  unfold Prettify, prettifyBytes. cbn [fst]. rewrite Ho, Hw, Hb, Hl.
  destruct (levelAbbrev (Level h)) as [lvl|]; [|split; auto].
  destruct (joinKVs (ensureWriter h) skipUnchanged "=") as [kvs|].
  - split; [discriminate | intros [H | H]; discriminate].
  - split; auto.
Qed.

End RendererFurther.

Section ComposedFurther.

Context {E : External}.

(** X13.  The slice [joinKVs] returns does not depend on the order in which
    the fields of the map are visited: two runs of the loop over the same
    fields in different orders return the same tokens in the same order,
    and panic in the same cases. *)
Theorem X13_iteration_order (h : JSONHandler) (skipUnchanged : bool) (sep : string) :
  joinKVs h skipUnchanged sep
  = joinKVs_visiting h skipUnchanged sep (map_to_list (Fields h))
  /\ forall visited visited',
       visited ≡ₚ visited' ->
       joinKVs_visiting h skipUnchanged sep visited
       = joinKVs_visiting h skipUnchanged sep visited'.
Proof.
  split; [reflexivity|]. intros visited visited' Hp.
  unfold joinKVs_visiting. destruct (Opts h) as [opts|]; [|reflexivity].
  pose proof (collectKVs_perm opts (last h) skipUnchanged sep visited visited' Hp) as H.
  destruct (collectKVs opts (last h) skipUnchanged sep visited) as [kv|],
    (collectKVs opts (last h) skipUnchanged sep visited') as [kv'|];
    try contradiction; [|reflexivity].
  f_equal. apply sortKVs_unique. exact H.
Qed.

Lemma collectKVs_all_skipped (opts : HandlerOptions) (lastFields : gmap string string)
    (skipUnchanged : bool) (sep : string) (l : list (string * string)) :
  (forall k v, (k, v) ∈ l -> kvToken opts lastFields skipUnchanged sep k v = Skipped) ->
  collectKVs opts lastFields skipUnchanged sep l = Some [].
Proof.
  induction l as [| [k v] l IH]; simpl; intros H; [reflexivity|].
  rewrite (H k v) by left. apply IH. intros k' v' Hin. apply H. right. exact Hin.
Qed.

(** The fields a successful call leaves on a handler without fields depend
    on the line alone. *)
Lemma UnmarshalJSON_fields_of_the_line (h h' : JSONHandler) (d : string) :
  Fields h = ∅ -> Fields h' = ∅ ->
  fst (UnmarshalJSON h d) = None ->
  Fields (snd (UnmarshalJSON h d)) = Fields (snd (UnmarshalJSON h' d)).
Proof.
  intros Hf Hf' Hok.
  assert (fst (UnmarshalJSON h' d) = None) as Hok'.
  { apply (UnmarshalJSON_verdict h h' d). exact Hok. }
  destruct (json_Unmarshal d) as [raw|] eqn:Hd.
  - destruct (UnmarshalJSON_decoded h d raw Hd) as [Herr Hfields].
    destruct (UnmarshalJSON_decoded h' d raw Hd) as [Herr' Hfields'].
    rewrite Herr in Hok. rewrite Herr' in Hok'.
    apply map_eq. intros k.
    rewrite (Hfields Hok k), (Hfields' Hok' k), Hf, Hf', !lookup_empty. reflexivity.
  - unfold UnmarshalJSON in Hok. rewrite Hd in Hok. discriminate.
Qed.

(** X14.  A line handled and rendered, and then handled once more: the
    second time it is handled again, its fields are the same, and they are
    the diff state; so with skip-unchanged on and no key forced by the
    override, the second rendering has no field token at all. *)
Theorem X14_repeated_line (h : JSONHandler) (d : string) (skipUnchanged : bool)
    (sep : string) :
  Fields h = ∅ ->
  fst (TryHandle h d) = true ->
  let h1 := snd (TryHandle h d) in
  let h2 := snd (Prettify h1 skipUnchanged) in
  fst (TryHandle h2 d) = true
  /\ Fields (snd (TryHandle h2 d)) = Fields h1
  /\ last (snd (TryHandle h2 d)) = Fields h1
  /\ forall opts,
       Opts (snd (TryHandle h2 d)) = Some opts ->
       (forall k, shouldShowUnchanged opts k = false) ->
       joinKVs (snd (TryHandle h2 d)) true sep = Some [].
Proof.
  intros Hempty Hok h1 h2.
  assert (fst (TryHandle h2 d) = true) as Hok2.
  { rewrite <- Hok. apply TryHandle_verdict. }
  split; [exact Hok2|].
  pose proof (TryHandle_true_state h d Hok) as H1.
  assert (fst (UnmarshalJSON h d) = None) as Hu1.
  { apply TryHandle_true in Hok. tauto. }
  pose proof (TryHandle_true_state h2 d Hok2) as H3.
  assert (Fields h2 = ∅ /\ last h2 = Fields h1) as [Hf2 Hl2].
  { subst h2. unfold Prettify, ensureWriter. destruct (out h1); simpl; auto. }
  assert (Fields (snd (TryHandle h2 d)) = Fields h1) as Hfields.
  { rewrite H3. subst h1. rewrite H1. symmetry.
    apply UnmarshalJSON_fields_of_the_line; assumption. }
  assert (last (snd (TryHandle h2 d)) = Fields h1) as Hlast.
  { rewrite H3. destruct (UnmarshalJSON_frame h2 d) as (-> & _). exact Hl2. }
  split; [exact Hfields|]. split; [exact Hlast|].
  intros opts Ho Hunch. unfold joinKVs. rewrite Ho.
  rewrite collectKVs_all_skipped.
  - unfold sortKVs. destruct (SortLongest opts); reflexivity.
  - intros k v Hin. apply elem_of_map_to_list in Hin.
    rewrite kvToken_cases.
    assert (shown opts (last (snd (TryHandle h2 d))) true k v = false) as ->;
      [|reflexivity].
    unfold shown. rewrite Hlast, <- Hfields, Hin, Hunch, String.eqb_refl.
    apply andb_false_r.
Qed.

(** X19.  On a handler without fields (a new handler, or one that
    [Prettify] or a failed [TryHandle] has just cleared), a successful
    [UnmarshalJSON] leaves as fields exactly what remains of the decoded
    line once the consumed keys are deleted, each value as its display
    string: nothing of an earlier line is among them. *)
Theorem X19_fields_of_a_cleared_handler (h : JSONHandler) (data : string)
    (raw : gmap string value) :
  Fields h = ∅ ->
  json_Unmarshal data = Some raw ->
  fst (UnmarshalJSON h data) = None ->
  Fields (snd (UnmarshalJSON h data)) = formatValue <$> remaining raw.
Proof.
  intros Hempty Hd Hok.
  destruct (UnmarshalJSON_decoded h data raw Hd) as [Herr Hfields].
  rewrite Herr in Hok. apply map_eq. intros k.
  rewrite (Hfields Hok k), lookup_fmap, Hempty, lookup_empty.
  destruct (remaining raw !! k); reflexivity.
Qed.

End ComposedFurther.

(** ** Levels of ASCII bytes *)

Lemma substring_0_map_bytes (f : ascii -> ascii) (n : nat) (s : string) :
  String.substring 0 n (map_bytes f s) = map_bytes f (String.substring 0 n s).
Proof.
  revert s. induction n as [|n IH]; intros [|c s]; simpl; try reflexivity.
  rewrite IH. reflexivity.
Qed.

Lemma substring_0_all (s : string) : String.substring 0 (String.length s) s = s.
Proof. induction s as [|c s IH]; simpl; [reflexivity | rewrite IH; reflexivity]. Qed.

Section LevelFurther.

Context {E : External}.

(** On ASCII bytes [strings.ToUpper] works byte by byte. *)
Lemma strings_ToUpper_map_bytes (s : string) :
  is_ascii s = true -> strings_ToUpper s = map_bytes ascii_upper s.
Proof.
  unfold strings_ToUpper.
  induction s as [|c s IH]; simpl; [reflexivity|].
  intros H. apply andb_true_iff in H as [Hc Hs]. rewrite Hc, (IH Hs).
  pose proof (byte_of_bound c) as Hb. apply Z.ltb_lt in Hc.
  unfold unicode_ToUpper, ascii_upper.
  assert ((byte_of c <=? 0x7F) = true) as -> by lia.
  destruct ((0x61 <=? byte_of c) && (byte_of c <=? 0x7A)) eqn:Hlow.
  - apply andb_true_iff in Hlow as [H1 H2].
    assert ((byte_of c - 0x20 <? 0) = false) as -> by lia.
    unfold utf8_encode.
    assert ((0 <=? byte_of c - 0x20) && (byte_of c - 0x20 <=? 0x7F) = true) as ->.
    { apply andb_true_intro. split; lia. }
    reflexivity.
  - assert ((byte_of c <? 0) = false) as -> by lia.
    unfold utf8_encode.
    assert ((0 <=? byte_of c) && (byte_of c <=? 0x7F) = true) as ->.
    { apply andb_true_intro. split; lia. }
    rewrite append_String, append_EmptyString. f_equal.
    unfold char_of, byte_of. rewrite Z.mod_small by (unfold byte_of in Hb; lia).
    rewrite Nat2Z.id. apply ascii_nat_embedding.
Qed.

(** X15.  For a level made of ASCII bytes the abbreviation succeeds: it is
    the first [imin(4, len(level))] bytes of the level with its lower-case
    letters turned to upper case; a level of at most 4 bytes is kept whole;
    the result has at most 4 bytes and no lower-case letter. *)
Theorem X15_level_abbreviation_ascii (level : string) :
  is_ascii level = true ->
  levelAbbrev level
  = Some (map_bytes ascii_upper
            (String.substring 0 (Z.to_nat (imin 4 (len level))) level))
  /\ (len level <= 4 -> levelAbbrev level = Some (map_bytes ascii_upper level))
  /\ forall lvl,
       levelAbbrev level = Some lvl ->
       len lvl = imin 4 (len level) /\ len lvl <= 4 /\ no_lower lvl = true.
Proof.
  intros Ha.
  destruct (levelAbbrev_ascii level Ha) as (lvl0 & Hl0 & Hlen & H4 & Hno).
  assert (levelAbbrev level
          = Some (map_bytes ascii_upper
                    (String.substring 0 (Z.to_nat (imin 4 (len level))) level))) as Heq.
  { rewrite Hl0. unfold levelAbbrev, slice_to in Hl0.
    destruct ((0 <=? imin 4 (len level)) && _); [|discriminate].
    injection Hl0 as <-.
    rewrite (strings_ToUpper_map_bytes level Ha), substring_0_map_bytes. reflexivity. }
  split; [exact Heq|]. split.
  - intros Hshort. rewrite Heq. do 2 f_equal.
    assert (imin 4 (len level) = len level) as ->.
    { unfold imin. destruct (4 <? len level) eqn:H; lia. }
    unfold len. rewrite Nat2Z.id. apply substring_0_all.
  - intros lvl Hl. rewrite Hl0 in Hl. injection Hl as <-. auto.
Qed.

End LevelFurther.

(** ** Integers held in a float64 *)

Lemma iter_xO_value (m n : positive) :
  Zpos (Pos.iter xO m n) = Zpos m * 2 ^ Zpos n.
Proof.
  induction n as [|n IH] using Pos.peano_ind.
  - simpl. lia.
  - rewrite Pos.iter_succ, Pos2Z.inj_xO, IH, Pos2Z.inj_succ, Z.pow_succ_r by lia. lia.
Qed.

Lemma iter_xO_digits (m n : positive) :
  digits2_pos (Pos.iter xO m n) = (digits2_pos m + n)%positive.
Proof.
  induction n as [|n IH] using Pos.peano_ind.
  - simpl. lia.
  - rewrite Pos.iter_succ. simpl. rewrite IH. lia.
Qed.

Lemma digits2_pos_lower (m : positive) : 2 ^ (Zpos (digits2_pos m) - 1) <= Zpos m.
Proof.
  induction m as [m IH | m IH |]; simpl digits2_pos.
  - rewrite Pos2Z.inj_succ. replace (Z.succ (Zpos (digits2_pos m)) - 1)
      with (Z.succ (Zpos (digits2_pos m) - 1)) by lia.
    rewrite Z.pow_succ_r by lia. lia.
  - rewrite Pos2Z.inj_succ. replace (Z.succ (Zpos (digits2_pos m)) - 1)
      with (Z.succ (Zpos (digits2_pos m) - 1)) by lia.
    rewrite Z.pow_succ_r by lia. lia.
  - reflexivity.
Qed.

(** A mantissa below [2^53] has at most 53 binary digits. *)
Lemma digits2_pos_le_prec (m : positive) : Zpos m < 2 ^ 53 -> Zpos (digits2_pos m) <= 53.
Proof.
  intros Hm. pose proof (digits2_pos_lower m) as Hl.
  destruct (Z_le_gt_dec (Zpos (digits2_pos m)) 53) as [H | H]; [exact H|].
  exfalso.
  assert (2 ^ 53 <= 2 ^ (Zpos (digits2_pos m) - 1)) by (apply Z.pow_le_mono_r; lia).
  lia.
Qed.

(** Rounding a mantissa that is already in canonical form returns it. *)
Lemma binary_round_aux_canonical (s : bool) (m : positive) (e : Z) :
  canonical_mantissa prec emax m e = true ->
  e <= emax - prec ->
  binary_round_aux prec emax s (Zpos m) e loc_Exact = S754_finite s m e.
Proof.
  unfold canonical_mantissa. intros Hc He. apply Z.eqb_eq in Hc.
  unfold binary_round_aux, shr_fexp.
  cbn [Zdigits2]. rewrite Hc, Z.sub_diag.
  cbn [shr shr_record_of_loc shr_m loc_of_shr_record round_nearest_even Zdigits2].
  rewrite Hc, Z.sub_diag. cbn [shr shr_m].
  assert ((e <=? emax - prec) = true) as -> by lia. reflexivity.
Qed.

(** The float64 of a non-zero integer of less than 54 bits: its mantissa is
    the integer shifted to 53 bits. *)
Lemma binary_normalize_integer (i : Z) :
  i <> 0 -> - 2 ^ 53 < i < 2 ^ 53 ->
  exists (m : positive) (k : Z),
    0 <= k <= 52
    /\ Zpos m = Z.abs i * 2 ^ k
    /\ binary_normalize prec emax i 0 false = S754_finite (i <? 0) m (- k)
    /\ valid_binary (S754_finite (i <? 0) m (- k)) = true.
Proof.
  intros Hnz Hi.
  assert (forall (s : bool) (p : positive),
            Zpos p < 2 ^ 53 ->
            exists (m : positive) (k : Z),
              0 <= k <= 52
              /\ Zpos m = Zpos p * 2 ^ k
              /\ binary_round prec emax s p 0 = S754_finite s m (- k)
              /\ valid_binary (S754_finite s m (- k)) = true) as Hround.
  { intros s p Hp. pose proof (digits2_pos_le_prec p Hp) as Hd.
    assert (fexp prec emax (Zpos (digits2_pos p) + 0) = Zpos (digits2_pos p) - 53) as Hf.
    { unfold fexp, emin, prec, emax. lia. }
    unfold binary_round, shl_align. rewrite Hf.
    destruct (Zpos (digits2_pos p) - 53 - 0) as [|q|q] eqn:Hq; [|lia|].
    - exists p, 0. split; [lia|]. split; [lia|].
      assert (canonical_mantissa prec emax p 0 = true) as Hc.
      { unfold canonical_mantissa. rewrite Hf. lia. }
      split.
      + rewrite binary_round_aux_canonical; [reflexivity | exact Hc |].
        unfold emax, prec. lia.
      + change (- 0) with 0. unfold valid_binary, bounded. rewrite Hc. reflexivity.
    - exists (Pos.iter xO p q), (Zpos q). split; [lia|].
      split; [apply iter_xO_value|].
      assert (Zpos (digits2_pos p) - 53 = - Zpos q) as -> by lia.
      assert (canonical_mantissa prec emax (Pos.iter xO p q) (- Zpos q) = true) as Hc.
      { unfold canonical_mantissa. rewrite iter_xO_digits, Pos2Z.inj_add.
        apply Z.eqb_eq. unfold fexp, emin, prec, emax. lia. }
      split.
      + rewrite binary_round_aux_canonical; [reflexivity | exact Hc |].
        unfold emax, prec. lia.
      + unfold valid_binary, bounded. rewrite Hc. unfold emax, prec. simpl andb. lia. }
  destruct i as [|p|p]; [contradiction| |].
  - destruct (Hround false p) as (m & k & Hk & Hm & Hr & Hv); [lia|].
    exists m, k. simpl. auto.
  - destruct (Hround true p) as (m & k & Hk & Hm & Hr & Hv); [lia|].
    exists m, k. simpl. auto.
Qed.

(** A valid mantissa above the smallest exponent has exactly 53 bits. *)
Lemma valid_mantissa_normal (s : bool) (m : positive) (e : Z) :
  valid_binary (S754_finite s m e) = true -> - 1074 < e -> 2 ^ 52 <= Zpos m.
Proof.
  unfold valid_binary, bounded, canonical_mantissa, fexp, emin, prec, emax.
  intros H He. apply andb_true_iff in H as [H _]. apply Z.eqb_eq in H.
  assert (Zpos (digits2_pos m) = 53) as Hd by lia.
  pose proof (digits2_pos_lower m) as Hl. rewrite Hd in Hl. exact Hl.
Qed.

(** The float64 of an integer of less than 54 bits holds the integer
    exactly: it is its own floor, its floor and its integer part are the
    integer, and it compares with [1e9] as the integer does. *)
Lemma float64_of_Z_exact (i : Z) :
  - 2 ^ 53 < i < 2 ^ 53 ->
  float_floorZ (float64_of_Z i) = Some i
  /\ float_truncZ (float64_of_Z i) = Some i
  /\ math_Floor (float64_of_Z i) = float64_of_Z i
  /\ Prim2SF (float64_of_Z i - float64_of_Z i) = S754_zero false
  /\ (float64_of_Z i <? 1e9)%float = (i <? 1000000000).
Proof.
  intros Hi. destruct (Z.eq_dec i 0) as [-> | Hnz].
  { split; [|split; [|split; [|split]]]; intros; vm_compute; reflexivity. }
  destruct (binary_normalize_integer i Hnz Hi) as (m & k & Hk & Hm & Hn & Hv).
  assert (Prim2SF (float64_of_Z i) = S754_finite (i <? 0) m (- k)) as Hp.
  { unfold float64_of_Z. rewrite Hn. apply Prim2SF_SF2Prim. exact Hv. }
  assert (0 < 2 ^ k) as Hpow by (apply Z.pow_pos_nonneg; lia).
  assert (float_floorZ (float64_of_Z i) = Some i) as Hfloor.
  { unfold float_floorZ. rewrite Hp. simpl SF_floorZ. f_equal.
    rewrite Z.shiftl_div_pow2, Z.opp_involutive by lia.
    destruct (i <? 0) eqn:Hs; simpl cond_Zopp; rewrite Hm.
    - replace (- (Z.abs i * 2 ^ k)) with (i * 2 ^ k) by lia.
      apply Z.div_mul. lia.
    - replace (Z.abs i) with i by lia. apply Z.div_mul. lia. }
  assert (float_truncZ (float64_of_Z i) = Some i) as Htrunc.
  { unfold float_truncZ. rewrite Hp. simpl SF_truncZ. f_equal.
    rewrite Z.shiftl_div_pow2, Z.opp_involutive, Hm, Z.div_mul by lia.
    destruct (i <? 0) eqn:Hs; simpl cond_Zopp; lia. }
  split; [exact Hfloor|]. split; [exact Htrunc|]. split; [|split].
  - unfold math_Floor. rewrite Hp, Hfloor. reflexivity.
  - rewrite sub_spec, Hp. unfold SF64sub, SFsub, shl_align.
    rewrite Z.min_id, Z.sub_diag. reflexivity.
  - rewrite ltb_spec, Hp.
    change (Prim2SF 1e9) with (S754_finite false 8388608000000000 (-23)).
    unfold SFltb, SFcompare.
    destruct (i <? 0) eqn:Hs.
    { symmetry. apply Z.ltb_lt. lia. }
    pose proof (valid_mantissa_normal _ _ _ Hv ltac:(lia)) as Hlow.
    pose proof (valid_mantissa_bound _ _ _ Hv) as Hhigh.
    assert (i = Z.abs i) as Habs by lia.
    assert (2 ^ 52 = 4503599627370496) as E52 by reflexivity.
    assert (2 ^ 53 = 9007199254740992) as E53 by reflexivity.
    rewrite E52 in Hlow. rewrite E53 in Hhigh.
    rewrite Pos.compare_cont_spec, Pos2Z.inj_compare. cbn [Pos.switch_Eq].
    destruct (i <? 1000000000) eqn:Hlt.
    + apply Z.ltb_lt in Hlt.
      assert (23 <= k) as Hk23.
      { destruct (Z_le_gt_dec 23 k) as [H | H]; [exact H|]. exfalso.
        assert (2 ^ k <= 2 ^ 22) as Hp22 by (apply Z.pow_le_mono_r; lia).
        assert (Z.abs i * 2 ^ k <= 1000000000 * 2 ^ 22) as Hprod.
        { apply Z.mul_le_mono_nonneg; lia. }
        change (2 ^ 22) with 4194304 in Hprod. lia. }
      destruct (Z.eq_dec k 23) as [-> | Hne].
      * change (2 ^ 23) with 8388608 in Hm.
        assert (Z.pos m < 8388608000000000) as Hbound.
        { rewrite Hm. clear - Hlt Habs. lia. }
        rewrite Z.compare_refl, (proj2 (Z.compare_lt_iff _ _) Hbound). reflexivity.
      * assert (- k < -23) as Hk' by lia.
        rewrite (proj2 (Z.compare_lt_iff _ _) Hk'). reflexivity.
    + apply Z.ltb_ge in Hlt.
      assert (k <= 23) as Hk23.
      { destruct (Z_le_gt_dec k 23) as [H | H]; [exact H|]. exfalso.
        assert (2 ^ 24 <= 2 ^ k) as Hp24 by (apply Z.pow_le_mono_r; lia).
        assert (1000000000 * 2 ^ 24 <= Z.abs i * 2 ^ k) as Hprod.
        { apply Z.mul_le_mono_nonneg; lia. }
        change (2 ^ 24) with 16777216 in Hprod. lia. }
      destruct (Z.eq_dec k 23) as [-> | Hne].
      * change (2 ^ 23) with 8388608 in Hm.
        assert (8388608000000000 <= Z.pos m) as Hbound.
        { rewrite Hm. clear - Hlt Habs. lia. }
        rewrite Z.compare_refl.
        destruct (Z.pos m ?= 8388608000000000) eqn:Hc; try reflexivity.
        rewrite Z.compare_lt_iff in Hc. lia.
      * assert (-23 < - k) as Hk' by lia.
        rewrite (proj2 (Z.compare_gt_iff _ _) Hk'). reflexivity.
Qed.

Section IntegersFurther.

Context {E : External}.

(** X16.  A field whose number is an integer of less than 54 bits is
    shown as the decimal digits of that integer (with a minus sign when
    negative; no decimal point, no exponent) when the integer is below
    [1000000000], and with [%g] from [1000000000] on. *)
Theorem X16_integers_shown_as_integers (i : Z) :
  - 2 ^ 53 < i < 2 ^ 53 ->
  looksLikeInteger (float64_of_Z i) = (i <? 1000000000)
  /\ formatValue (VFloat64 (float64_of_Z i))
     = if i <? 1000000000 then Sprintf_d i else Sprintf_g (float64_of_Z i).
Proof.
  intros Hi.
  destruct (float64_of_Z_exact i Hi) as (_ & Htrunc & Hfl & Hsub & Hlt).
  assert (looksLikeInteger (float64_of_Z i) = (i <? 1000000000)) as Hlooks.
  { unfold looksLikeInteger. rewrite Hfl, Hlt, ltb_spec, Hsub. reflexivity. }
  split; [exact Hlooks|].
  simpl. rewrite Hlooks. destruct (i <? 1000000000); [|reflexivity].
  f_equal. unfold float64_to_int64. rewrite Htrunc.
  assert ((int64_min <=? i) && (i <=? int64_max) = true) as ->; [|reflexivity].
  unfold int64_min, int64_max. apply andb_true_intro.
  change (2 ^ 53) with 9007199254740992 in *.
  change (2 ^ 63) with 9223372036854775808. split; lia.
Qed.

(** X17.  A line without a string timestamp whose "ts" is a number holding
    the integer [i] (seconds since the epoch) is accepted, and its time is
    [time.Unix(i, 0)]: the nanoseconds are zero. *)
Theorem X17_integer_seconds (h : JSONHandler) (data : string)
    (raw : gmap string value) (i : Z) :
  json_Unmarshal data = Some raw ->
  timestampString raw = None ->
  raw !! "ts" = Some (VFloat64 (float64_of_Z i)) ->
  - 2 ^ 53 < i < 2 ^ 53 ->
  fst (UnmarshalJSON h data) = None
  /\ Time (snd (UnmarshalJSON h data)) = time_Unix i 0.
Proof.
  intros Hd Hs Hts Hi.
  destruct (UnmarshalJSON_decoded h data raw Hd) as [Herr _].
  destruct (extractTime_no_string h raw Hs) as (Hnone & _).
  assert (fst (UnmarshalJSON h data) = None) as Hok by (rewrite Herr; exact Hnone).
  split; [exact Hok|].
  destruct (UnmarshalJSON_record h data raw Hd Hok) as (_ & _ & ->).
  destruct (float64_of_Z_exact i Hi) as (_ & Htrunc & _ & Hsub & _).
  assert (float64_to_int64 (float64_of_Z i) = i) as Hsec.
  { unfold float64_to_int64. rewrite Htrunc.
    assert ((int64_min <=? i) && (i <=? int64_max) = true) as ->; [|reflexivity].
    unfold int64_min, int64_max. apply andb_true_intro.
    change (2 ^ 53) with 9007199254740992 in *.
    change (2 ^ 63) with 9223372036854775808. split; lia. }
  assert (float64_to_int64
            ((float64_of_Z i - float64_of_Z i) * 1000000000)%float = 0) as Hnsec.
  { unfold float64_to_int64, float_truncZ.
    rewrite mul_spec, Hsub.
    change (Prim2SF 1000000000) with (S754_finite false 8388608000000000 (-23)).
    reflexivity. }
  unfold timestampString in Hs. unfold extractTime.
  destruct (raw !! "time") as [[]|] eqn:Htime; try discriminate;
    rewrite Hts in *; simpl; rewrite ?Hts; simpl; rewrite Hsec, Hnsec; reflexivity.
Qed.

End IntegersFurther.

(** ** The further properties on concrete lines *)

(** X3 at the key [count] of [line_started]. *)
Lemma X3_other_keys_stored_witness :
  Fields (snd (@UnmarshalJSON plain_External new_handler line_started)) !! "count"
  = Some "3".
Proof.
  apply (@X3_other_keys_stored plain_External new_handler line_started raw_started
           "count"); vm_compute; reflexivity.
Defined.

(** X4 at [line_shadowed]: "ts", "message" and "lvl" are shadowed by "time",
    "msg" and "level", and stay fields. *)
Lemma X4_unconsumed_reserved_keys_witness :
  Fields (snd (@UnmarshalJSON wider_External new_handler line_shadowed)) !! "ts"
  = Some "7"
  /\ Fields (snd (@UnmarshalJSON wider_External new_handler line_shadowed)) !! "message"
     = Some (quoted "b")
  /\ Fields (snd (@UnmarshalJSON wider_External new_handler line_shadowed)) !! "lvl"
     = Some (quoted "x").
Proof.
  destruct (@X4_unconsumed_reserved_keys wider_External new_handler line_shadowed
              raw_shadowed) as (_ & Hts & _ & Hmessage & _ & Hlvl);
    [vm_compute; reflexivity | vm_compute; reflexivity |].
  split; [|split].
  - rewrite Hts; [vm_compute; reflexivity | left; vm_compute; reflexivity].
  - rewrite Hmessage; [vm_compute; reflexivity | left; vm_compute; reflexivity].
  - rewrite Hlvl; vm_compute; reflexivity.
Defined.

(** X5 at [line_started]. *)
Lemma X5_level_of_the_line_witness :
  Level (snd (@UnmarshalJSON plain_External new_handler line_started)) = "info".
Proof.
  apply (@X5_level_of_the_line plain_External new_handler line_started raw_started);
    vm_compute; reflexivity.
Defined.

(** X6 at [line_nested], which has no message key. *)
Lemma X6_message_of_the_line_witness :
  Message (snd (@UnmarshalJSON plain_External (set_Message new_handler "old")
                  line_nested))
  = EmptyString.
Proof.
  apply (@X6_message_of_the_line plain_External (set_Message new_handler "old")
           line_nested raw_nested); vm_compute; reflexivity.
Defined.

(** X7 at [line_started]. *)
Lemma X7_time_of_the_line_witness :
  Time (snd (@UnmarshalJSON plain_External new_handler line_started))
  = {| seconds := 63839664000; nanoseconds := 0 |}.
Proof.
  destruct (@X7_time_of_the_line plain_External new_handler line_started raw_started)
    as [Hstring _]; [vm_compute; reflexivity | vm_compute; reflexivity |].
  destruct (Hstring "2024-01-01T00:00:00Z") as [_ ->]; vm_compute; reflexivity.
Defined.

(** X8 at [handler_deploy] with skip-unchanged on: of three fields, two are
    shown. *)
Lemma X8_tokens_of_shown_fields_witness :
  @joinKVs plain_External (handler_deploy 15) true "="
  = Some ["count=3"; "region=" +:+ quoted "eu"]
  /\ (length ["count=3"; "region=" +:+ quoted "eu"]
      <= size (Fields (handler_deploy 15)))%nat.
Proof.
  assert (@joinKVs plain_External (handler_deploy 15) true "="
          = Some ["count=3"; "region=" +:+ quoted "eu"]) as Hj.
  { vm_compute. reflexivity. }
  destruct (@X8_tokens_of_shown_fields plain_External (handler_deploy 15)
              (options_limit 15) true "=" _ eq_refl Hj) as (_ & _ & Hsize).
  split; [exact Hj | exact Hsize].
Defined.

(** X9 at [handler_deploy] with the limit -1. *)
Lemma X9_joinKVs_panics_witness :
  @joinKVs plain_External (handler_deploy (-1)) false "=" = None.
Proof.
  apply (proj2 (@X9_joinKVs_panics plain_External (handler_deploy (-1))
                  (options_limit (-1)) false "=" eq_refl)).
  split; [reflexivity|]. split; [reflexivity|].
  exists "env", (quoted "production"). split; vm_compute; reflexivity.
Defined.

(** X10 at [handler_deploy]. *)
Lemma X10_Prettify_returns_witness :
  exists bytes lvl kvs,
    fst (@Prettify plain_External (handler_deploy 15) true) = Some bytes
    /\ @levelAbbrev plain_External (Level (handler_deploy 15)) = Some lvl
    /\ @joinKVs plain_External (@ensureWriter plain_External (handler_deploy 15)) true "="
       = Some kvs.
Proof.
  apply (@X10_Prettify_returns plain_External (handler_deploy 15) (options_limit 15)
           true).
  - reflexivity.
  - intros _. discriminate.
  - intros _. vm_compute. discriminate.
  - reflexivity.
Defined.

(** X11 at the limit 5 and a value of 12 bytes. *)
Lemma X11_truncated_length_witness :
  len (DQ +:+ "prod...") <= TruncateLength (options_limit 5) + 3.
Proof.
  apply (@X11_truncated_length (options_limit 5) (quoted "production")
           (DQ +:+ "prod...")).
  - reflexivity.
  - vm_compute. discriminate.
  - vm_compute. reflexivity.
Defined.

(** X14 at [line_started] on a new handler. *)
Lemma X14_repeated_line_witness :
  fst (@TryHandle plain_External
         (snd (@Prettify plain_External
                 (snd (@TryHandle plain_External new_handler line_started)) true))
         line_started) = true
  /\ @joinKVs plain_External
       (snd (@TryHandle plain_External
               (snd (@Prettify plain_External
                       (snd (@TryHandle plain_External new_handler line_started)) true))
               line_started)) true "=" = Some [].
Proof.
  destruct (@X14_repeated_line plain_External new_handler line_started true "=")
    as (Hok & _ & _ & Hquiet); [reflexivity | vm_compute; reflexivity |].
  split; [exact Hok|].
  apply (Hquiet (@DefaultOptions plain_External)); [vm_compute; reflexivity|].
  intros k. reflexivity.
Defined.

(** X15 at the level [warning]. *)
Lemma X15_level_abbreviation_ascii_witness :
  @levelAbbrev plain_External "warning" = Some "WARN".
Proof.
  apply (proj1 (@X15_level_abbreviation_ascii plain_External "warning" eq_refl)).
Defined.

(** X16 at the integers 42 and -7. *)
Lemma X16_integers_shown_as_integers_witness :
  @formatValue plain_External (VFloat64 (float64_of_Z 42)) = "42"
  /\ @formatValue plain_External (VFloat64 (float64_of_Z (-7))) = "-7".
Proof.
  split.
  - apply (proj2 (@X16_integers_shown_as_integers plain_External 42
                    ltac:(split; reflexivity))).
  - apply (proj2 (@X16_integers_shown_as_integers plain_External (-7)
                    ltac:(split; reflexivity))).
Defined.

(** X17 at [line_ticks]. *)
Lemma X17_integer_seconds_witness :
  fst (@UnmarshalJSON wider_External new_handler line_ticks) = None
  /\ Time (snd (@UnmarshalJSON wider_External new_handler line_ticks))
     = @time_Unix wider_External 1700000000 0.
Proof.
  apply (@X17_integer_seconds wider_External new_handler line_ticks raw_ticks
           1700000000).
  - vm_compute. reflexivity.
  - vm_compute. reflexivity.
  - reflexivity.
  - split; reflexivity.
Defined.

(** X18 at a handler whose level is [long_s]. *)
Lemma X18_Prettify_panics_witness :
  fst (@Prettify plain_External (set_Level (handler_deploy 15) long_s) true) = None.
Proof.
  apply (proj2 (@X18_Prettify_panics plain_External
                  (set_Level (handler_deploy 15) long_s) (options_limit 15) true
                  eq_refl ltac:(intros _; discriminate))).
  left. vm_compute. reflexivity.
Defined.

(** X19 at [line_shadowed] on a new handler. *)
Lemma X19_fields_of_a_cleared_handler_witness :
  Fields (snd (@UnmarshalJSON wider_External new_handler line_shadowed))
  = @formatValue wider_External <$> remaining raw_shadowed.
Proof.
  apply (@X19_fields_of_a_cleared_handler wider_External new_handler line_shadowed
           raw_shadowed); vm_compute; reflexivity.
Defined.
